(** * Prompt Architect: data layer, reference resolution, generation
    request construction and import/export, embedded in Rocq.

    Sources: [types.ts], [services/db.ts], [hooks/useIndexedDB.ts],
    [services/geminiService.ts] and the components of [App.tsx].

    Strings. A JavaScript string is a sequence of UTF-16 code units. It is
    represented here by a [string] of bytes in which each code unit is
    written as the UTF-8 byte sequence of its value (one, two or three
    bytes; a surrogate is written like any other unit). Every JavaScript
    string has exactly one such representation, ASCII text is represented
    by itself, the first byte of a unit never occurs inside another, and
    comparing representations byte by byte orders them as their code
    units. *)

From stdpp Require Import base gmap strings list fin_maps pretty sorting.
From Stdlib Require Import Ascii.



(* ------------------------------------------------------------------ *)
(** ** Data model ([types.ts]) *)

Inductive ApiKeySource := Environment | Custom.

(** [theme] is the constant ['dark'] and carries no information. *)
Record Settings := {
  apiKeySource : ApiKeySource;
  apiKey : string;
  hasSeenWelcome : option bool
}.

Inductive Style := StyleDefault | Anime | Realistic.
Inductive Length := LengthDefault | Short | Long.
Inductive Mode := ModeText | ModeJSON.

Record HistoryConfig := {
  cfg_style : Style;
  cfg_length : Length;
  cfg_isJsonMode : bool;
  cfg_useReasoning : bool;
  cfg_useMarsLsp : bool
}.

Record HistoryItem := {
  h_id : string;
  userPrompt : string;
  generatedPrompt : string;
  timestamp : Z;
  model : string;
  mode : Mode;
  config : option HistoryConfig;
  referencedTemplates : option (list string);
  referencedBundles : option (list string)
}.

Record PromptTemplate := {
  t_id : string;
  title : string;
  description : string;
  prompt : string;
  tags : list string;
  models : list string;
  exampleVideo : option string;
  exampleVideoType : option string
}.

Record BundledTemplate := {
  b_id : string;
  name : string;
  b_description : string;
  templateIds : list string
}.

(** [xs.includes(x)] on a string array. *)
Definition includes (xs : list string) (x : string) : bool :=
  existsb (String.eqb x) xs.

(* ------------------------------------------------------------------ *)
(** ** JavaScript [Map] keyed by strings

    A [Map] is an insertion-ordered association list: [set] on a key
    already present replaces its value in place (the key keeps its
    original position), a new key goes to the end. *)
Module JsMap.
Section M.
Context {V : Type}.

Fixpoint set (m : list (string * V)) (k : string) (v : V) : list (string * V) :=
  match m with
  | [] => [(k, v)]
  | (k', v') :: m' => if String.eqb k k' then (k, v) :: m' else (k', v') :: set m' k v
  end.

Fixpoint get (m : list (string * V)) (k : string) : option V :=
  match m with
  | [] => None
  | (k', v') :: m' => if String.eqb k k' then Some v' else get m' k
  end.

(** [new Map(entries)]: each entry is [set] in order. *)
Definition of_entries (es : list (string * V)) : list (string * V) :=
  foldl (fun m e => set m e.1 e.2) [] es.

(** [map.values()] in iteration (insertion) order. *)
Definition values (m : list (string * V)) : list V := map snd m.
End M.
End JsMap.

(* ------------------------------------------------------------------ *)
(** ** Reference resolver ([handleSubmit], App.tsx lines 746-752) *)

Definition templatesFromTags (allTemplates : list PromptTemplate)
    (selectedTags : list string) : list PromptTemplate :=
  List.filter (fun t => existsb (fun tag => includes (tags t) tag) selectedTags) allTemplates.

Definition templatesFromBundles (allTemplates : list PromptTemplate)
    (selectedBundles : list BundledTemplate) : list PromptTemplate :=
  List.filter (fun t => existsb (fun bundle => includes (templateIds bundle) (t_id t)) selectedBundles)
    allTemplates.

(** The spread [[...fromTags, ...fromBundles, ...individual]]. *)
Definition qualifying (allTemplates : list PromptTemplate) (selectedTags : list string)
    (selectedBundles : list BundledTemplate) (selectedIndividualTemplates : list PromptTemplate)
    : list PromptTemplate :=
  templatesFromTags allTemplates selectedTags
  ++ templatesFromBundles allTemplates selectedBundles
  ++ selectedIndividualTemplates.

Definition allReferencedTemplates (allTemplates : list PromptTemplate)
    (selectedTags : list string) (selectedBundles : list BundledTemplate)
    (selectedIndividualTemplates : list PromptTemplate) : list PromptTemplate :=
  JsMap.values (JsMap.of_entries
    (map (fun item => (t_id item, item))
       (qualifying allTemplates selectedTags selectedBundles selectedIndividualTemplates))).

(** First-seen order of a list of keys, skipping keys already in [seen]. *)
Fixpoint dedup_after (seen : list string) (l : list string) : list string :=
  match l with
  | [] => []
  | k :: r => if includes seen k then dedup_after seen r else k :: dedup_after (seen ++ [k]) r
  end.

(* ------------------------------------------------------------------ *)
(** ** Request construction ([streamEnhancePrompt], geminiService.ts) *)

Definition nl : string := String (ascii_of_nat 10) EmptyString.
Definition dq : string := String (ascii_of_nat 34) EmptyString.

(** Template-literal rendering of booleans and of the string enums. *)
Definition bool_to_string (b : bool) : string := if b then "true" else "false".

Definition style_to_string (s : Style) : string :=
  match s with StyleDefault => "default" | Anime => "anime" | Realistic => "realistic" end.

Definition length_to_string (l : Length) : string :=
  match l with LengthDefault => "default" | Short => "short" | Long => "long" end.

(** [`--- REFERENCE TEMPLATE: "${t.title}" ---\n${t.prompt}`] *)
Definition reference_entry (t : PromptTemplate) : string :=
  "--- REFERENCE TEMPLATE: " +:+ dq +:+ title t +:+ dq +:+ " ---" +:+ nl +:+ prompt t.

(** The reference block; [referencedTemplates] is optional in [StreamRequest]. *)
Definition references_block (referencedTemplates : option (list PromptTemplate)) : string :=
  match referencedTemplates with
  | Some ((_ :: _) as rs) =>
      "Use the following templates as creative inspiration:" +:+ nl +:+ nl
      +:+ String.concat (nl +:+ nl) (map reference_entry rs) +:+ nl +:+ nl
  | _ => EmptyString
  end.

(** The controls footer: header, the three flags always, and the length
    line only in JSON or MARS-LSP mode. *)
Definition controls_footer (isJsonMode useMarsLsp : bool) (style : Style) (length : Length)
    : string :=
  "--- USER REQUEST & CREATIVE CONTROLS ---" +:+ nl
  +:+ "jsonModeEnabled: " +:+ bool_to_string isJsonMode +:+ nl
  +:+ "marsLspEnabled: " +:+ bool_to_string useMarsLsp +:+ nl
  +:+ "style: " +:+ style_to_string style +:+ nl
  +:+ (if isJsonMode || useMarsLsp then "length: " +:+ length_to_string length +:+ nl else EmptyString).

Definition user_request_tail (prompt : string) : string :=
  nl +:+ "User's basic prompt: " +:+ dq +:+ prompt +:+ dq +:+ nl +:+ nl
  +:+ "Enhanced prompt, JSON object, or video description:".

Definition userRequestText (referencedTemplates : option (list PromptTemplate))
    (isJsonMode useMarsLsp : bool) (style : Style) (length : Length) (prompt : string)
    : string :=
  references_block referencedTemplates
  +:+ controls_footer isJsonMode useMarsLsp style length
  +:+ user_request_tail prompt.

Record MediaData := { base64 : string; mimeType : string }.

Inductive Part := TextPart (text : string) | InlineDataPart (data mimeType : string).

(** The [parts] of the request. The static [SYSTEM_PROMPT] text is taken
    as an argument. *)
Definition request_parts (SYSTEM_PROMPT : string) (media : option MediaData)
    (referencedTemplates : option (list PromptTemplate))
    (isJsonMode useMarsLsp : bool) (style : Style) (length : Length) (prompt : string)
    : list Part :=
  [TextPart SYSTEM_PROMPT]
  ++ (match media with Some m => [InlineDataPart (base64 m) (mimeType m)] | None => [] end)
  ++ [TextPart (userRequestText referencedTemplates isJsonMode useMarsLsp style length prompt)].

(** Substring test. *)
Fixpoint contains (sub s : string) : bool :=
  String.prefix sub s ||
  match s with EmptyString => false | String _ s' => contains sub s' end.

(** The reference entry format as the specification words it
    ([REFERENCE TEMPLATE: <title>\n<prompt-body>]), for comparison with
    [reference_entry]. *)
Definition spec_reference_entry (t : PromptTemplate) : string :=
  "REFERENCE TEMPLATE: " +:+ title t +:+ nl +:+ prompt t.

(* ------------------------------------------------------------------ *)
(** ** Local store ([services/db.ts]) and the binding hook ([useIndexedDB])

    An object store is a map from its key path ([id], or [key] for the
    settings store) to the record; [put] is an upsert. *)

(** [setStoreData]: clear the store, then [put] every item in order. *)
Definition store_of {A} (key : A -> string) (data : list A) : gmap string A :=
  foldl (fun m item => <[key item := item]> m) ∅ data.

(** [getStoreData]: all records of the store (IndexedDB returns them in
    key order; only their set matters below). *)
Definition get_all {A} (m : gmap string A) : list A := map snd (map_to_list m).

(** A store written by [setStoreData]: each record sits under its own key. *)
Definition keyed {A} (key : A -> string) (m : gmap string A) : Prop :=
  forall k v, m !! k = Some v -> key v = k.

(** The application's four collections: the in-memory values held by the
    [useIndexedDB] hooks and the four object stores. *)
Record App := {
  m_settings : Settings;
  m_history : list HistoryItem;
  m_templates : list PromptTemplate;
  m_bundles : list BundledTemplate;
  db_settings : gmap string Settings;
  db_history : gmap string HistoryItem;
  db_templates : gmap string PromptTemplate;
  db_bundles : gmap string BundledTemplate
}.

Definition USER_SETTINGS : string := "user-settings".

(** The hook's [setValue] for an array collection: the new value replaces
    the in-memory one and is written through with [setStoreData]. *)
Definition setHistory (f : list HistoryItem -> list HistoryItem) (a : App) : App :=
  let v := f (m_history a) in
  {| m_settings := m_settings a; m_history := v; m_templates := m_templates a;
     m_bundles := m_bundles a; db_settings := db_settings a; db_history := store_of h_id v;
     db_templates := db_templates a; db_bundles := db_bundles a |}.

Definition setTemplates (f : list PromptTemplate -> list PromptTemplate) (a : App) : App :=
  let v := f (m_templates a) in
  {| m_settings := m_settings a; m_history := m_history a; m_templates := v;
     m_bundles := m_bundles a; db_settings := db_settings a; db_history := db_history a;
     db_templates := store_of t_id v; db_bundles := db_bundles a |}.

Definition setBundles (f : list BundledTemplate -> list BundledTemplate) (a : App) : App :=
  let v := f (m_bundles a) in
  {| m_settings := m_settings a; m_history := m_history a; m_templates := m_templates a;
     m_bundles := v; db_settings := db_settings a; db_history := db_history a;
     db_templates := db_templates a; db_bundles := store_of b_id v |}.

(** The hook's [setValue] for the settings singleton: written with
    [setSingleObject] as [{key: 'user-settings', value}]. *)
Definition setSettings (v : Settings) (a : App) : App :=
  {| m_settings := v; m_history := m_history a; m_templates := m_templates a;
     m_bundles := m_bundles a; db_settings := <[USER_SETTINGS := v]> (db_settings a);
     db_history := db_history a; db_templates := db_templates a; db_bundles := db_bundles a |}.

(** [db.setStoreData(name, data)] called directly. *)
Definition writeHistory (v : list HistoryItem) (a : App) : App :=
  {| m_settings := m_settings a; m_history := m_history a; m_templates := m_templates a;
     m_bundles := m_bundles a; db_settings := db_settings a; db_history := store_of h_id v;
     db_templates := db_templates a; db_bundles := db_bundles a |}.

Definition writeTemplates (v : list PromptTemplate) (a : App) : App :=
  {| m_settings := m_settings a; m_history := m_history a; m_templates := m_templates a;
     m_bundles := m_bundles a; db_settings := db_settings a; db_history := db_history a;
     db_templates := store_of t_id v; db_bundles := db_bundles a |}.

Definition writeBundles (v : list BundledTemplate) (a : App) : App :=
  {| m_settings := m_settings a; m_history := m_history a; m_templates := m_templates a;
     m_bundles := m_bundles a; db_settings := db_settings a; db_history := db_history a;
     db_templates := db_templates a; db_bundles := store_of b_id v |}.

(** [db.setSingleObject('settings', record)] with a record [{key, value}]. *)
Definition writeSettingsRecord (key : string) (v : Settings) (a : App) : App :=
  {| m_settings := m_settings a; m_history := m_history a; m_templates := m_templates a;
     m_bundles := m_bundles a; db_settings := <[key := v]> (db_settings a);
     db_history := db_history a; db_templates := db_templates a; db_bundles := db_bundles a |}.

Inductive Toast := ToastSuccess (message : string) | ToastError (message : string).

(* ------------------------------------------------------------------ *)
(** ** API key resolution (shared by the generating handlers) *)

Definition apiKeyToUse (isAistudio : bool) (settings : Settings) (env_API_KEY : option string)
    : string :=
  if isAistudio && (match apiKeySource settings with Environment => true | Custom => false end)
  then default EmptyString env_API_KEY
  else apiKey settings.

Definition is_empty_string (s : string) : bool := String.eqb s EmptyString.

(** [e.message || 'An unknown error occurred.'] *)
Definition error_message (msg : string) : string :=
  if is_empty_string msg then "An unknown error occurred." else msg.

(* ------------------------------------------------------------------ *)
(** ** Generation ([handleSubmit], App.tsx lines 723-801) *)

(** The prompter's inputs at the time of the click. *)
Record SubmitInput := {
  s_prompt : string;
  s_media : option string;              (** the attached file's name *)
  s_isAistudio : bool;
  s_env_API_KEY : option string;
  s_isJsonMode : bool;
  s_useMarsLsp : bool;
  s_style : Style;
  s_length : Length;
  s_useReasoning : bool;
  s_selectedTags : list string;
  s_selectedBundles : list BundledTemplate;
  s_selectedIndividualTemplates : list PromptTemplate
}.

(** The prompter's own UI state. *)
Record PrompterUI := {
  ui_generatedPrompt : string;
  ui_error : option string;
  ui_isLoading : bool
}.

(** How the stream ends: [for await] finishes, or the iterator throws. *)
Inductive StreamEnd := StreamDone | StreamError (message : string).

(** A response stream: the [chunk.text] of each chunk in arrival order
    ([None] for a chunk without text), then its end. *)
Record ResponseStream := { chunks : list (option string); stream_end : StreamEnd }.

Inductive StreamCall := StreamThrows (message : string) | StreamReturns (s : ResponseStream).

(** What the outside world answers during one run: the result of
    [fileToBase64], of the [streamEnhancePrompt] call, the fresh UUID and
    [Date.now()]. *)
Record SubmitWorld := {
  w_fileToBase64 : string + MediaData;
  w_stream : StreamCall;
  w_uuid : string;
  w_now : Z
}.

(** The loop [fullResponse += text; setGeneratedPrompt(prev => prev + text)]
    for the chunks whose text is non-empty. *)
Fixpoint consume (cs : list (option string)) (fullResponse shown : string) : string * string :=
  match cs with
  | [] => (fullResponse, shown)
  | c :: cs' =>
      match c with
      | Some text =>
          if is_empty_string text then consume cs' fullResponse shown
          else consume cs' (fullResponse +:+ text) (shown +:+ text)
      | None => consume cs' fullResponse shown
      end
  end.

(** Concatenation of the yielded fragments in arrival order. *)
Definition concat_fragments (cs : list (option string)) : string :=
  foldr (fun c acc => default EmptyString c +:+ acc) EmptyString cs.

Definition userPromptForHistory (prompt : string) (media : option string) : string :=
  match media with
  | Some fname =>
      if negb (is_empty_string prompt) then prompt +:+ " (media: " +:+ fname +:+ ")"
      else "Media: " +:+ fname
  | None => prompt
  end.

Definition new_history_item (i : SubmitInput) (w : SubmitWorld) (refs : list PromptTemplate)
    (fullResponse : string) : HistoryItem := {|
  h_id := w_uuid w;
  userPrompt := userPromptForHistory (s_prompt i) (s_media i);
  generatedPrompt := fullResponse;
  timestamp := w_now w;
  model := "gemini-2.5-flash";
  mode := if s_isJsonMode i then ModeJSON else ModeText;
  config := Some {| cfg_style := s_style i; cfg_length := s_length i;
                    cfg_isJsonMode := s_isJsonMode i; cfg_useReasoning := s_useReasoning i;
                    cfg_useMarsLsp := s_useMarsLsp i |};
  referencedTemplates := Some (map t_id refs);
  referencedBundles := Some (map b_id (s_selectedBundles i)) |}.

(** Result of one run: the collections, the prompter UI, and the number of
    [streamEnhancePrompt] invocations. *)
Record SubmitResult := { sr_app : App; sr_ui : PrompterUI; sr_stream_calls : nat }.

Definition handleSubmit (i : SubmitInput) (w : SubmitWorld) (a : App) (ui : PrompterUI)
    : SubmitResult :=
  if is_empty_string (s_prompt i) && (match s_media i with None => true | Some _ => false end)
  then {| sr_app := a;
          sr_ui := {| ui_generatedPrompt := ui_generatedPrompt ui;
                      ui_error := Some "Please enter a prompt or upload media.";
                      ui_isLoading := ui_isLoading ui |};
          sr_stream_calls := 0 |}
  else
  let key := apiKeyToUse (s_isAistudio i) (m_settings a) (s_env_API_KEY i) in
  if is_empty_string key
  then {| sr_app := a;
          sr_ui := {| ui_generatedPrompt := EmptyString;
                      ui_error := Some "API Key is missing. Please configure it in settings.";
                      ui_isLoading := false |};
          sr_stream_calls := 0 |}
  else
  let refs := allReferencedTemplates (m_templates a) (s_selectedTags i)
                (s_selectedBundles i) (s_selectedIndividualTemplates i) in
  let fail (shown msg : string) (calls : nat) :=
    {| sr_app := a;
       sr_ui := {| ui_generatedPrompt := shown; ui_error := Some (error_message msg);
                   ui_isLoading := false |};
       sr_stream_calls := calls |} in
  match (match s_media i with
         | Some _ => match w_fileToBase64 w with inl e => inl e | inr md => inr (Some md) end
         | None => inr None
         end) with
  | inl msg => fail EmptyString msg 0
  | inr _mediaData =>
      match w_stream w with
      | StreamThrows msg => fail EmptyString msg 1
      | StreamReturns st =>
          let '(fullResponse, shown) := consume (chunks st) EmptyString EmptyString in
          match stream_end st with
          | StreamError msg => fail shown msg 1
          | StreamDone =>
              let a' := if is_empty_string fullResponse then a
                        else setHistory (fun prev => new_history_item i w refs fullResponse :: prev) a in
              {| sr_app := a';
                 sr_ui := {| ui_generatedPrompt := shown; ui_error := None; ui_isLoading := false |};
                 sr_stream_calls := 1 |}
          end
      end
  end.

(** The hooks' initial values, and the application on an empty store. *)
Definition default_settings (isAistudio : bool) : Settings := {|
  apiKeySource := if isAistudio then Environment else Custom;
  apiKey := EmptyString; hasSeenWelcome := Some false |}.

Definition empty_app (isAistudio : bool) : App := {|
  m_settings := default_settings isAistudio; m_history := []; m_templates := [];
  m_bundles := []; db_settings := ∅; db_history := ∅; db_templates := ∅; db_bundles := ∅ |}.

(* ------------------------------------------------------------------ *)
(** ** Batch add ([handleGenerateAndSave], App.tsx lines 1773-1819, and
    [generateBatchTemplateMetadata], geminiService.ts lines 842-913) *)

(** White space as [String.prototype.trim] and the class [\s] of regular
    expressions see it: the ECMAScript white space and line terminators,
    U+0009-U+000D, U+0020, U+00A0, U+1680, U+2000-U+200A, U+2028, U+2029,
    U+202F, U+205F, U+3000 and U+FEFF. In the encoding of strings used here
    they are one byte ([ws1]), the two bytes C2 A0 ([ws2]) or three bytes
    ([ws3]); the first byte of a character never occurs inside another. *)
Definition ws1 (a : ascii) : bool :=
  let n := nat_of_ascii a in (Nat.leb 9 n && Nat.leb n 13) || Nat.eqb n 32.

Definition ws2 (a b : ascii) : bool :=
  Nat.eqb (nat_of_ascii a) 194 && Nat.eqb (nat_of_ascii b) 160.

Definition ws3 (a b c : ascii) : bool :=
  let x := nat_of_ascii a in let y := nat_of_ascii b in let z := nat_of_ascii c in
  (Nat.eqb x 225 && Nat.eqb y 154 && Nat.eqb z 128) ||                (* U+1680 *)
  (Nat.eqb x 226 && Nat.eqb y 128 &&
     ((Nat.leb 128 z && Nat.leb z 138) ||                               (* U+2000-U+200A *)
      Nat.eqb z 168 || Nat.eqb z 169 ||                                 (* U+2028, U+2029 *)
      Nat.eqb z 175)) ||                                                (* U+202F *)
  (Nat.eqb x 226 && Nat.eqb y 129 && Nat.eqb z 159) ||                (* U+205F *)
  (Nat.eqb x 227 && Nat.eqb y 128 && Nat.eqb z 128) ||                (* U+3000 *)
  (Nat.eqb x 239 && Nat.eqb y 187 && Nat.eqb z 191).                  (* U+FEFF *)

(** The rest of [s] after its first character, when that character is
    white space. *)
Definition ws_step (s : string) : option string :=
  match s with
  | String a r =>
      if ws1 a then Some r else
      match r with
      | String b r2 =>
          if ws2 a b then Some r2 else
          match r2 with
          | String c r3 => if ws3 a b c then Some r3 else None
          | EmptyString => None
          end
      | EmptyString => None
      end
  | EmptyString => None
  end.

(** The leading white space removed. *)
Fixpoint trim_start (s : string) : string :=
  match s with
  | String a r =>
      if ws1 a then trim_start r else
      match r with
      | String b r2 =>
          if ws2 a b then trim_start r2 else
          match r2 with
          | String c r3 => if ws3 a b c then trim_start r3 else s
          | EmptyString => s
          end
      | EmptyString => s
      end
  | EmptyString => EmptyString
  end.

(** [s] holds white space only. *)
Definition is_blank (s : string) : bool := is_empty_string (trim_start s).

(** The trailing white space removed: the shortest prefix of [s] after
    which only white space remains. *)
Fixpoint trim_end (s : string) : string :=
  match s with
  | EmptyString => EmptyString
  | String c s' => if is_blank s then EmptyString else String c (trim_end s')
  end.

(** [String.prototype.trim] *)
Definition trim (s : string) : string := trim_end (trim_start s).

Record Metadata := { md_title : string; md_description : string; md_tags : list string }.

(** The answer of [ai.models.generateContent]: it throws, or its parsed
    JSON has a [templates] field ([None] when missing). *)
Inductive BatchCall := BatchThrows (message : string) | BatchReturns (templates : option (list Metadata)).

Definition generateBatchTemplateMetadata (prompts : list string) (resp : BatchCall)
    : string + list Metadata :=
  match resp with
  | BatchThrows msg => inl msg
  | BatchReturns None => inl "AI returned a mismatched number of templates."
  | BatchReturns (Some ts) =>
      if negb (Nat.eqb (length ts) (length prompts))
      then inl "AI returned a mismatched number of templates."
      else inr ts
  end.

Record BatchInput := {
  bi_prompts : list string;          (** the values of the prompt rows *)
  bi_guidance : string;
  bi_existingTags : list string;
  bi_isAistudio : bool;
  bi_env_API_KEY : option string
}.

(** [prompts.filter(p => p.value.trim() !== '')] *)
Definition nonEmptyPrompts (i : BatchInput) : list string :=
  List.filter (fun v => negb (String.eqb (trim v) EmptyString)) (bi_prompts i).

(** [nonEmptyPrompts.map((prompt, index) => ({... metadataArray[index] ...}))];
    reading a field of [metadataArray[index]] when it is [undefined]
    throws ([None]). [uuid k] is the [crypto.randomUUID()] of row [k]. *)
Fixpoint build_templates (uuid : nat -> string) (metadataArray : list Metadata) (index : nat)
    (ps : list string) : option (list PromptTemplate) :=
  match ps with
  | [] => Some []
  | p :: ps' =>
      match nth_error metadataArray index with
      | None => None
      | Some md =>
          match build_templates uuid metadataArray (S index) ps' with
          | None => None
          | Some rest =>
              Some ({| t_id := uuid index; title := md_title md; description := md_description md;
                       prompt := p; tags := md_tags md; models := ["Sora 2.2"];
                       exampleVideo := None; exampleVideoType := None |} :: rest)
          end
      end
  end.

(** Result: the collections, the toast shown, whether the modal closed,
    and the number of metadata requests sent. *)
Record BatchResult := { br_app : App; br_toast : option Toast; br_closed : bool; br_calls : nat }.

(** [onSave] is [handleSaveBatchTemplates]: prepend the new templates. *)
Definition handleGenerateAndSave (i : BatchInput) (resp : BatchCall) (uuid : nat -> string)
    (a : App) : BatchResult :=
  let ps := nonEmptyPrompts i in
  if Nat.eqb (length ps) 0
  then {| br_app := a; br_toast := Some (ToastError "Please add at least one prompt.");
          br_closed := false; br_calls := 0 |}
  else
  let key := apiKeyToUse (bi_isAistudio i) (m_settings a) (bi_env_API_KEY i) in
  if is_empty_string key
  then {| br_app := a;
          br_toast := Some (ToastError "API Key is missing. Please configure it in settings.");
          br_closed := false; br_calls := 0 |}
  else
  let fail (msg : string) :=
    {| br_app := a;
       br_toast := Some (ToastError (if is_empty_string msg then "Failed to generate metadata." else msg));
       br_closed := false; br_calls := 1 |} in
  match generateBatchTemplateMetadata ps resp with
  | inl msg => fail msg
  | inr metadataArray =>
      match build_templates uuid metadataArray 0 ps with
      | None => fail "Cannot read properties of undefined (reading 'title')"
      | Some newTemplates =>
          {| br_app := setTemplates (fun prev => newTemplates ++ prev) a;
             br_toast := Some (ToastSuccess (pretty (length newTemplates)
                                               +:+ " templates added successfully!"));
             br_closed := true; br_calls := 1 |}
      end
  end.

(* ------------------------------------------------------------------ *)
(** ** Save a history item as a template ([handleSaveTemplateFromHistory],
    App.tsx lines 2205-2230) *)

Inductive MetadataCall := MetadataThrows (message : string) | MetadataReturns (md : Metadata).

Record SaveResult := { sv_app : App; sv_toast : Toast; sv_calls : nat }.

Definition handleSaveTemplateFromHistory (isAistudio : bool) (env_API_KEY : option string)
    (item : HistoryItem) (resp : MetadataCall) (uuid : string) (a : App) : SaveResult :=
  let key := apiKeyToUse isAistudio (m_settings a) env_API_KEY in
  if is_empty_string key
  then {| sv_app := a; sv_toast := ToastError "API key is missing."; sv_calls := 0 |}
  else
  match resp with
  | MetadataThrows _ =>
      {| sv_app := a; sv_toast := ToastError "Failed to generate template metadata."; sv_calls := 1 |}
  | MetadataReturns md =>
      let newTemplate := {| t_id := uuid; title := md_title md; description := md_description md;
                            prompt := generatedPrompt item; tags := md_tags md;
                            models := ["Sora 2.2"]; exampleVideo := None;
                            exampleVideoType := None |} in
      {| sv_app := setTemplates (fun prev => newTemplate :: prev) a;
         sv_toast := ToastSuccess "Template saved successfully!"; sv_calls := 1 |}
  end.

(* ------------------------------------------------------------------ *)
(** ** Concrete inputs used by the examples and witnesses *)

Definition sample_template : PromptTemplate := {|
  t_id := "t1"; title := "T"; description := EmptyString; prompt := "P";
  tags := []; models := []; exampleVideo := None; exampleVideoType := None |}.

Definition sample_input (p : string) (media : option string) : SubmitInput := {|
  s_prompt := p; s_media := media; s_isAistudio := false; s_env_API_KEY := None;
  s_isJsonMode := false; s_useMarsLsp := false; s_style := StyleDefault;
  s_length := LengthDefault; s_useReasoning := false; s_selectedTags := [];
  s_selectedBundles := []; s_selectedIndividualTemplates := [] |}.

Definition app_with_key (key : string) : App := {|
  m_settings := {| apiKeySource := Custom; apiKey := key; hasSeenWelcome := Some true |};
  m_history := []; m_templates := []; m_bundles := [];
  db_settings := ∅; db_history := ∅; db_templates := ∅; db_bundles := ∅ |}.

Definition idle_ui : PrompterUI := {| ui_generatedPrompt := EmptyString; ui_error := None; ui_isLoading := false |}.

Definition abc_stream : ResponseStream :=
  {| chunks := [Some "A"; Some "B"; Some "C"]; stream_end := StreamDone |}.

Definition world_of (st : StreamCall) : SubmitWorld := {|
  w_fileToBase64 := inl "unreadable"; w_stream := st; w_uuid := "u1"; w_now := 0%Z |}.

Definition sample_metadata : Metadata := {| md_title := "t"; md_description := "d"; md_tags := ["x"] |}.

Definition three_prompts : BatchInput := {|
  bi_prompts := ["p1"; "p2"; "p3"]; bi_guidance := EmptyString; bi_existingTags := [];
  bi_isAistudio := false; bi_env_API_KEY := None |}.

Definition uuid_of (k : nat) : string := pretty k.

(** U+00A0 (no-break space), the bytes C2 A0. *)
Definition nbsp : string := String (ascii_of_nat 194) (String (ascii_of_nat 160) EmptyString).

Definition nbsp_row_input : BatchInput := {|
  bi_prompts := ["p1"; nbsp]; bi_guidance := EmptyString; bi_existingTags := [];
  bi_isAistudio := false; bi_env_API_KEY := None |}.

(* ------------------------------------------------------------------ *)
(** ** Export and import ([handleExportData] and [handleImportFileChange],
    App.tsx lines 2248-2361) *)

(** The value found under a collection key of the parsed document: an
    array of records, or any value that is not an array. *)
Inductive Field (A : Type) := FArray (items : list A) | FNotArray.
Arguments FArray {A} items.
Arguments FNotArray {A}.

(** The value under the [settings] key: falsy ([null], [false], [0],
    [""]), a stored settings record [{key, value}], or a truthy value the
    settings store refuses ([put] throws: no [key], or an invalid key). *)
Inductive SettingsField := SFalsy | SRecord (key : string) (value : Settings) | SRejected.

(** A parsed JSON object: each top-level key is absent ([None]) or present. *)
Record Doc := {
  doc_settings : option SettingsField;
  doc_history : option (Field HistoryItem);
  doc_templates : option (Field PromptTemplate);
  doc_bundles : option (Field BundledTemplate)
}.

(** The outcome of [JSON.parse(text)]: it throws, it yields a value on
    which [key in importedData] throws ([null], a number, a string, a
    boolean), or it yields an object (an array is an object without the
    four keys). *)
Inductive Parsed := PMalformed | PNotObject | PObject (d : Doc).

Record DataOptions := { o_settings : bool; o_history : bool; o_templates : bool; o_bundles : bool }.

Definition all_options : DataOptions :=
  {| o_settings := true; o_history := true; o_templates := true; o_bundles := true |}.

(** [handleExportData]: the document, or [None] when nothing is selected
    ("Nothing selected to export."). *)
Definition handleExportData (options : DataOptions) (a : App) : option Doc :=
  let d := {|
    doc_settings :=
      if o_settings options then
        Some (match db_settings a !! USER_SETTINGS with
              | Some v => SRecord USER_SETTINGS v
              | None => SFalsy
              end)
      else None;
    doc_history := if o_history options then Some (FArray (get_all (db_history a))) else None;
    doc_templates := if o_templates options then Some (FArray (get_all (db_templates a))) else None;
    doc_bundles := if o_bundles options then Some (FArray (get_all (db_bundles a))) else None |} in
  match doc_settings d, doc_history d, doc_templates d, doc_bundles d with
  | None, None, None, None => None
  | _, _, _, _ => Some d
  end.

(** [JSON.parse(JSON.stringify(doc))]: the records hold only strings,
    numbers, booleans, arrays and optional fields, so parsing the exported
    text yields an object with the same keys and values. *)
Definition reparse (d : Doc) : Parsed := PObject d.

(** The merge of one collection: keep [prev], append the incoming items
    whose identifier is not among [prev]'s. *)
Definition merge_by_id {A} (key : A -> string) (prev incoming : list A) : list A :=
  let existingIds := map key prev in
  let newItems := List.filter (fun item => negb (includes existingIds (key item))) incoming in
  prev ++ newItems.

(** The settings step; [None] when [setSingleObject] throws. *)
Definition import_settings (options : DataOptions) (d : Doc) (a : App) : option App :=
  if o_settings options then
    match doc_settings d with
    | Some (SRecord k v) => Some (setSettings v (writeSettingsRecord k v a))
    | Some SRejected => None
    | _ => Some a
    end
  else Some a.

(** The updater writes [combined] with [db.setStoreData], then the hook
    stores it and writes it through again. *)
Definition import_history (options : DataOptions) (d : Doc) (a : App) : App :=
  match o_history options, doc_history d with
  | true, Some (FArray items) =>
      setHistory (fun prev => merge_by_id h_id prev items)
        (writeHistory (merge_by_id h_id (m_history a) items) a)
  | _, _ => a
  end.

Definition import_templates (options : DataOptions) (d : Doc) (a : App) : App :=
  match o_templates options, doc_templates d with
  | true, Some (FArray items) =>
      setTemplates (fun prev => merge_by_id t_id prev items)
        (writeTemplates (merge_by_id t_id (m_templates a) items) a)
  | _, _ => a
  end.

Definition import_bundles (options : DataOptions) (d : Doc) (a : App) : App :=
  match o_bundles options, doc_bundles d with
  | true, Some (FArray items) =>
      setBundles (fun prev => merge_by_id b_id prev items)
        (writeBundles (merge_by_id b_id (m_bundles a) items) a)
  | _, _ => a
  end.

Definition IMPORT_FAILED : string := "Failed to read or process the backup file.".

Definition handleImport (importOptions : DataOptions) (p : Parsed) (a : App) : App * Toast :=
  match p with
  | PMalformed => (a, ToastError IMPORT_FAILED)
  | PNotObject =>
      (* each step evaluates [importOptions.x && 'x' in importedData]: the
         first selected key throws, before anything is written *)
      if o_settings importOptions || o_history importOptions ||
         o_templates importOptions || o_bundles importOptions
      then (a, ToastError IMPORT_FAILED)
      else (a, ToastSuccess "Data imported successfully!")
  | PObject d =>
      match import_settings importOptions d a with
      | None => (a, ToastError IMPORT_FAILED)
      | Some a1 =>
          (import_bundles importOptions d
             (import_templates importOptions d (import_history importOptions d a1)),
           ToastSuccess "Data imported successfully!")
      end
  end.

(* ------------------------------------------------------------------ *)
(** ** Deleting a template and resolving references at read time *)

(** The delete button of a template card (App.tsx lines 321-324):
    [setTemplates(prev => prev.filter(t => t.id !== template.id))]. *)
Definition deleteTemplate (template : PromptTemplate) (a : App) : App :=
  setTemplates (fun prev => List.filter (fun t => negb (String.eqb (t_id t) (t_id template))) prev) a.

(** The templates shown under a selected bundle (App.tsx line 883):
    [allTemplates.filter(t => bundle.templateIds.includes(t.id))]. *)
Definition templatesForBundle (allTemplates : list PromptTemplate) (bundle : BundledTemplate)
    : list PromptTemplate :=
  List.filter (fun t => includes (templateIds bundle) (t_id t)) allTemplates.

(** [templatesById] of [HistoryView] (App.tsx line 1040). *)
Definition templatesById (allTemplates : list PromptTemplate) : list (string * PromptTemplate) :=
  JsMap.of_entries (map (fun t => (t_id t, t)) allTemplates).

(** [.filter((t): t is PromptTemplate => !!t)] on an array of lookups. *)
Fixpoint keep_defined {A} (l : list (option A)) : list A :=
  match l with
  | [] => []
  | Some x :: r => x :: keep_defined r
  | None :: r => keep_defined r
  end.

(** [item.referencedTemplates?.map(id => templatesById.get(id)).filter(...) || []]
    (App.tsx line 1119). *)
Definition hydratedTemplates (allTemplates : list PromptTemplate) (item : HistoryItem)
    : list PromptTemplate :=
  match referencedTemplates item with
  | Some ids => keep_defined (map (JsMap.get (templatesById allTemplates)) ids)
  | None => []
  end.

(** An application whose template store holds one template and whose
    other stores are empty. *)
Definition export_sample_app : App := {|
  m_settings := default_settings false; m_history := []; m_templates := [sample_template];
  m_bundles := []; db_settings := ∅; db_history := ∅;
  db_templates := store_of t_id [sample_template]; db_bundles := ∅ |}.

(** Settings with a key of the user's own, and an application whose
    settings store holds them. *)
Definition keyed_settings : Settings :=
  {| apiKeySource := Custom; apiKey := "k"; hasSeenWelcome := Some true |}.

Definition settings_sample_app : App := {|
  m_settings := keyed_settings; m_history := []; m_templates := []; m_bundles := [];
  db_settings := {[USER_SETTINGS := keyed_settings]}; db_history := ∅;
  db_templates := ∅; db_bundles := ∅ |}.

(* ------------------------------------------------------------------ *)
(** ** Loading a collection ([useIndexedDB]'s [loadData], useIndexedDB.ts
    lines 13-37) *)

(** For an array collection: [data.length > 0 ? data : initialValue]. *)
Definition loadArray {A} (initialValue : list A) (m : gmap string A) : list A :=
  let data := get_all m in
  if Nat.ltb 0 (length data) then data else initialValue.

(** For the settings singleton: [data ? data.value : initialValue]. *)
Definition loadSettings (initialValue : Settings) (m : gmap string Settings) : Settings :=
  match m !! USER_SETTINGS with
  | Some v => v
  | None => initialValue
  end.

(** A fresh mount of [App]: the four hooks load from the stores. *)
Definition reload (isAistudio : bool) (a : App) : App := {|
  m_settings := loadSettings (default_settings isAistudio) (db_settings a);
  m_history := loadArray [] (db_history a);
  m_templates := loadArray [] (db_templates a);
  m_bundles := loadArray [] (db_bundles a);
  db_settings := db_settings a; db_history := db_history a;
  db_templates := db_templates a; db_bundles := db_bundles a |}.

(** The welcome effect (App.tsx lines 2058-2062):
    [if (!isSettingsLoading && !settings.hasSeenWelcome) setIsWelcomeModalOpen(true)]. *)
Definition welcome_opens (isSettingsLoading : bool) (s : Settings) : bool :=
  negb isSettingsLoading && negb (default false (hasSeenWelcome s)).

(** [handleCloseWelcomeModal] (App.tsx lines 2363-2366):
    [setSettings(prev => ({...prev, hasSeenWelcome: true}))]. *)
Definition handleCloseWelcomeModal (a : App) : App :=
  let prev := m_settings a in
  setSettings {| apiKeySource := apiKeySource prev; apiKey := apiKey prev;
                 hasSeenWelcome := Some true |} a.

(* ------------------------------------------------------------------ *)
(** ** Import and export option dialogs ([ImportOptionsModal],
    App.tsx lines 1883-1933, [ExportOptionsModal], lines 1935-1983) *)

Inductive OptionKey := KSettings | KHistory | KTemplates | KBundles.

(** [setOptions(prev => ({ ...prev, [key]: !prev[key] }))] *)
Definition flip_option (key : OptionKey) (o : DataOptions) : DataOptions :=
  match key with
  | KSettings => {| o_settings := negb (o_settings o); o_history := o_history o;
                    o_templates := o_templates o; o_bundles := o_bundles o |}
  | KHistory => {| o_settings := o_settings o; o_history := negb (o_history o);
                   o_templates := o_templates o; o_bundles := o_bundles o |}
  | KTemplates => {| o_settings := o_settings o; o_history := o_history o;
                     o_templates := negb (o_templates o); o_bundles := o_bundles o |}
  | KBundles => {| o_settings := o_settings o; o_history := o_history o;
                   o_templates := o_templates o; o_bundles := negb (o_bundles o) |}
  end.

(** The import dialog starts with settings off and ignores toggles of it. *)
Definition import_options_initial : DataOptions :=
  {| o_settings := false; o_history := true; o_templates := true; o_bundles := true |}.

Definition import_handleToggle (key : OptionKey) (o : DataOptions) : DataOptions :=
  match key with
  | KSettings => o
  | _ => flip_option key o
  end.

(** The options the import dialog confirms after a sequence of clicks. *)
Definition import_dialog_options (clicks : list OptionKey) : DataOptions :=
  fold_left (fun o k => import_handleToggle k o) clicks import_options_initial.

(* ------------------------------------------------------------------ *)
(** ** Clearing and deleting (App.tsx lines 2156-2178, 2233-2246,
    BundleCard lines 1268-1296) *)

(** [clearStore(name)]: the object store is emptied. *)
Definition clearHistoryStore (a : App) : App :=
  {| m_settings := m_settings a; m_history := m_history a; m_templates := m_templates a;
     m_bundles := m_bundles a; db_settings := db_settings a; db_history := ∅;
     db_templates := db_templates a; db_bundles := db_bundles a |}.

Definition clearTemplatesStore (a : App) : App :=
  {| m_settings := m_settings a; m_history := m_history a; m_templates := m_templates a;
     m_bundles := m_bundles a; db_settings := db_settings a; db_history := db_history a;
     db_templates := ∅; db_bundles := db_bundles a |}.

Definition clearBundlesStore (a : App) : App :=
  {| m_settings := m_settings a; m_history := m_history a; m_templates := m_templates a;
     m_bundles := m_bundles a; db_settings := db_settings a; db_history := db_history a;
     db_templates := db_templates a; db_bundles := ∅ |}.

(** The confirmed action of [handleClearHistory]:
    [await clearStore('history'); setHistory([])]. *)
Definition clearHistoryConfirmed (a : App) : App :=
  setHistory (fun _ => []) (clearHistoryStore a).

(** The confirmed action of [handleClearTemplates]. *)
Definition clearTemplatesConfirmed (a : App) : App :=
  setBundles (fun _ => []) (setTemplates (fun _ => []) (clearBundlesStore (clearTemplatesStore a))).

(** [confirmDeleteItemAction] (App.tsx lines 2173-2178). *)
Definition confirmDeleteItemAction (confirmDeleteItem : option HistoryItem) (a : App) : App :=
  match confirmDeleteItem with
  | None => a
  | Some it => setHistory (fun prev => List.filter (fun item => negb (String.eqb (h_id item) (h_id it))) prev) a
  end.

(** The delete button of a bundle card:
    [setBundles(prev => prev.filter(b => b.id !== bundle.id))]. *)
Definition deleteBundle (bundle : BundledTemplate) (a : App) : App :=
  setBundles (fun prev => List.filter (fun b => negb (String.eqb (b_id b) (b_id bundle))) prev) a.

(** [bundlesById] of [HistoryView] (App.tsx line 1041). *)
Definition bundlesById (allBundles : list BundledTemplate) : list (string * BundledTemplate) :=
  JsMap.of_entries (map (fun b => (b_id b, b)) allBundles).

(** [item.referencedBundles?.map(id => bundlesById.get(id)).filter(...) || []]
    (App.tsx line 1118). *)
Definition hydratedBundles (allBundles : list BundledTemplate) (item : HistoryItem)
    : list BundledTemplate :=
  match referencedBundles item with
  | Some ids => keep_defined (map (JsMap.get (bundlesById allBundles)) ids)
  | None => []
  end.

(* ------------------------------------------------------------------ *)
(** ** Usage counters ([usageCounts] and [tagUsageCounts], App.tsx lines
    2029-2047) *)

(** [counts.set(k, (counts.get(k) || 0) + 1)] *)
Definition count_set (counts : list (string * nat)) (k : string) : list (string * nat) :=
  JsMap.set counts k (match JsMap.get counts k with Some n => n | None => 0 end + 1).

Definition usageCounts (history : list HistoryItem) : list (string * nat) :=
  foldl (fun counts item =>
           match referencedTemplates item with
           | Some ids => foldl count_set counts ids
           | None => counts
           end) [] history.

Definition tagUsageCounts (templates : list PromptTemplate) : list (string * nat) :=
  foldl (fun counts template => foldl count_set counts (tags template)) [] templates.

(** The number of times [k] occurs in [ids]. *)
Definition occurrences (ids : list string) (k : string) : nat :=
  length (List.filter (fun x => String.eqb x k) ids).

(** The count a usage map holds for [x] ([counts.get(x) || 0]), and that
    every count it holds is positive. *)
Definition count_of (counts : list (string * nat)) (x : string) : nat :=
  match JsMap.get counts x with Some n => n | None => 0 end.

Definition counts_positive (counts : list (string * nat)) : Prop :=
  forall x n, JsMap.get counts x = Some n -> 0 < n.

(* ------------------------------------------------------------------ *)
(** ** Selections and toggles *)

(** A JavaScript [Set] of strings is an insertion-ordered list without
    duplicates; [new Set(arr)] keeps the first occurrence of each value. *)
Definition set_of (arr : list string) : list string := dedup_after [] arr.

(** [has(x) ? delete(x) : add(x)] on a [Set]: [add] appends a new value. *)
Definition set_toggle (s : list string) (x : string) : list string :=
  if includes s x then List.filter (fun y => negb (String.eqb y x)) s else s ++ [x].

(** [MultiTagFilterDropdown.handleToggleTag] (App.tsx lines 422-430):
    [Array.from] of the toggled [new Set(selectedTags)]. *)
Definition multiTag_handleToggleTag (selectedTags : list string) (tag : string) : list string :=
  set_toggle (set_of selectedTags) tag.

(** [QuickAddPanel] toggles (App.tsx lines 526-542). *)
Definition toggleTag (prev : list string) (tag : string) : list string :=
  if includes prev tag then List.filter (fun t => negb (String.eqb t tag)) prev else prev ++ [tag].

Definition toggleBundle (prev : list BundledTemplate) (bundle : BundledTemplate) : list BundledTemplate :=
  if existsb (fun b => String.eqb (b_id b) (b_id bundle)) prev
  then List.filter (fun b => negb (String.eqb (b_id b) (b_id bundle))) prev
  else prev ++ [bundle].

Definition toggleTemplate (prev : list PromptTemplate) (template : PromptTemplate) : list PromptTemplate :=
  if existsb (fun t => String.eqb (t_id t) (t_id template)) prev
  then List.filter (fun t => negb (String.eqb (t_id t) (t_id template))) prev
  else prev ++ [template].

(* ------------------------------------------------------------------ *)
(** ** The bundle editor ([VisualBundleEditorModal], App.tsx lines
    1583-1734) and [handleSaveBundle] (lines 2136-2144) *)

(** The selection when the editor opens: [new Set(existingBundle.templateIds)]
    or an empty [Set]. *)
Definition bundle_editor_initial (existingBundle : option BundledTemplate) : list string :=
  match existingBundle with
  | Some b => set_of (templateIds b)
  | None => []
  end.

(** [toggleTemplateInBundle] over a sequence of clicks. *)
Definition bundle_editor_selection (existingBundle : option BundledTemplate) (clicks : list string)
    : list string :=
  fold_left set_toggle clicks (bundle_editor_initial existingBundle).

(** [handleSave]: nothing when the name is empty; otherwise the bundle
    with [existingBundle?.id || crypto.randomUUID()]. *)
Definition bundle_editor_save (existingBundle : option BundledTemplate) (uuid : string)
    (bname bdescription : string) (selectedTemplateIds : list string) : option BundledTemplate :=
  if is_empty_string bname then None
  else Some {| b_id := match existingBundle with
                       | Some b => if is_empty_string (b_id b) then uuid else b_id b
                       | None => uuid
                       end;
               name := bname; b_description := bdescription;
               templateIds := selectedTemplateIds |}.

Definition handleSaveBundle (editingBundle : option BundledTemplate) (bundleData : BundledTemplate)
    (a : App) : App :=
  match editingBundle with
  | Some _ => setBundles (fun prev => map (fun b => if String.eqb (b_id b) (b_id bundleData)
                                                    then bundleData else b) prev) a
  | None => setBundles (fun prev => bundleData :: prev) a
  end.

(** One editing session: the editor opens on [editingBundle], the user
    clicks templates, sets name and description, and saves. *)
Definition bundle_editor_session (editingBundle : option BundledTemplate) (clicks : list string)
    (bname bdescription uuid : string) (a : App) : App :=
  match bundle_editor_save editingBundle uuid bname bdescription
          (bundle_editor_selection editingBundle clicks) with
  | Some bundleData => handleSaveBundle editingBundle bundleData a
  | None => a
  end.

(* ------------------------------------------------------------------ *)
(** ** The template form ([TemplateFormModal], App.tsx lines 1448-1558)
    and [handleSaveTemplate] (lines 2110-2118) *)

(** [s.split(',')] *)
Fixpoint split_comma (s : string) : list string :=
  match s with
  | EmptyString => [EmptyString]
  | String c s' =>
      let r := split_comma s' in
      if Ascii.eqb c "," then EmptyString :: r
      else match r with
           | [] => [String c EmptyString]
           | x :: r' => String c x :: r'
           end
  end.

(** [value.split(',').map(t => t.trim()).filter(Boolean)] *)
Definition parse_list (value : string) : list string :=
  List.filter (fun t => negb (is_empty_string t)) (map trim (split_comma value)).

(** [arr.join(', ')] *)
Definition join_list (arr : list string) : string := String.concat ", " arr.

(** The form state: [Omit<PromptTemplate, 'id'>], which at run time
    carries the [id] of the template it was loaded from ([setTemplate(existingTemplate)]). *)
Record TemplateForm := {
  f_id : option string;
  f_title : string;
  f_description : string;
  f_prompt : string;
  f_tags : list string;
  f_models : list string;
  f_exampleVideo : option string;
  f_exampleVideoType : option string
}.

(** The effect run when the form opens. *)
Definition template_form_initial (existingTemplate : option PromptTemplate) : TemplateForm :=
  match existingTemplate with
  | Some t => {| f_id := Some (t_id t); f_title := title t; f_description := description t;
                 f_prompt := prompt t; f_tags := tags t; f_models := models t;
                 f_exampleVideo := exampleVideo t; f_exampleVideoType := exampleVideoType t |}
  | None => {| f_id := None; f_title := EmptyString; f_description := EmptyString;
               f_prompt := EmptyString; f_tags := []; f_models := [];
               f_exampleVideo := None; f_exampleVideoType := None |}
  end.

(** The inputs of the form; a video change carries the result of
    [fileToBase64]. *)
Inductive FormEdit :=
  | EditTitle (v : string)
  | EditDescription (v : string)
  | EditPrompt (v : string)
  | EditTagsInput (v : string)
  | EditModelsInput (v : string)
  | EditVideo (base64 type_ : string)
  | RemoveVideo.

Definition apply_form_edit (f : TemplateForm) (e : FormEdit) : TemplateForm :=
  match e with
  | EditTitle v => {| f_id := f_id f; f_title := v; f_description := f_description f;
                      f_prompt := f_prompt f; f_tags := f_tags f; f_models := f_models f;
                      f_exampleVideo := f_exampleVideo f; f_exampleVideoType := f_exampleVideoType f |}
  | EditDescription v => {| f_id := f_id f; f_title := f_title f; f_description := v;
                      f_prompt := f_prompt f; f_tags := f_tags f; f_models := f_models f;
                      f_exampleVideo := f_exampleVideo f; f_exampleVideoType := f_exampleVideoType f |}
  | EditPrompt v => {| f_id := f_id f; f_title := f_title f; f_description := f_description f;
                      f_prompt := v; f_tags := f_tags f; f_models := f_models f;
                      f_exampleVideo := f_exampleVideo f; f_exampleVideoType := f_exampleVideoType f |}
  | EditTagsInput v => {| f_id := f_id f; f_title := f_title f; f_description := f_description f;
                      f_prompt := f_prompt f; f_tags := parse_list v; f_models := f_models f;
                      f_exampleVideo := f_exampleVideo f; f_exampleVideoType := f_exampleVideoType f |}
  | EditModelsInput v => {| f_id := f_id f; f_title := f_title f; f_description := f_description f;
                      f_prompt := f_prompt f; f_tags := f_tags f; f_models := parse_list v;
                      f_exampleVideo := f_exampleVideo f; f_exampleVideoType := f_exampleVideoType f |}
  | EditVideo b ty => {| f_id := f_id f; f_title := f_title f; f_description := f_description f;
                      f_prompt := f_prompt f; f_tags := f_tags f; f_models := f_models f;
                      f_exampleVideo := Some b; f_exampleVideoType := Some ty |}
  | RemoveVideo => {| f_id := f_id f; f_title := f_title f; f_description := f_description f;
                      f_prompt := f_prompt f; f_tags := f_tags f; f_models := f_models f;
                      f_exampleVideo := None; f_exampleVideoType := None |}
  end.

(** [handleSave]: nothing without a title or a prompt; otherwise
    [{ id: existingTemplate?.id || crypto.randomUUID(), ...template }],
    where the spread's own [id] wins. *)
Definition template_form_save (existingTemplate : option PromptTemplate) (uuid : string)
    (f : TemplateForm) : option PromptTemplate :=
  if is_empty_string (f_title f) || is_empty_string (f_prompt f) then None
  else Some {| t_id := match f_id f with
                       | Some i => i
                       | None => match existingTemplate with
                                 | Some t => if is_empty_string (t_id t) then uuid else t_id t
                                 | None => uuid
                                 end
                       end;
               title := f_title f; description := f_description f; prompt := f_prompt f;
               tags := f_tags f; models := f_models f; exampleVideo := f_exampleVideo f;
               exampleVideoType := f_exampleVideoType f |}.

Definition handleSaveTemplate (editingTemplate : option PromptTemplate) (templateData : PromptTemplate)
    (a : App) : App :=
  match editingTemplate with
  | Some _ => setTemplates (fun prev => map (fun t => if String.eqb (t_id t) (t_id templateData)
                                                      then templateData else t) prev) a
  | None => setTemplates (fun prev => templateData :: prev) a
  end.

(** One session of the form, opened on [editingTemplate]. *)
Definition template_form_session (editingTemplate : option PromptTemplate) (edits : list FormEdit)
    (uuid : string) (a : App) : App :=
  match template_form_save editingTemplate uuid
          (fold_left apply_form_edit edits (template_form_initial editingTemplate)) with
  | Some templateData => handleSaveTemplate editingTemplate templateData a
  | None => a
  end.
(** [s.includes(',')] is false. *)
Fixpoint no_comma (s : string) : bool :=
  match s with
  | EmptyString => true
  | String c s' => negb (Ascii.eqb c ",") && no_comma s'
  end.

(* ------------------------------------------------------------------ *)
(** ** Re-running a history item ([handleRerun], App.tsx lines 2180-2199) *)

Inductive View := PROMPTER | HISTORY | TEMPLATES.

(** The lifted prompter state of [App]; [p_media] is the attached file's name. *)
Record PrompterState := {
  p_prompt : string;
  p_isJsonMode : bool;
  p_useMarsLsp : bool;
  p_style : Style;
  p_length : Length;
  p_useReasoning : bool;
  p_selectedTags : list string;
  p_selectedBundles : list BundledTemplate;
  p_selectedIndividualTemplates : list PromptTemplate;
  p_media : option string;
  p_view : View
}.

(** [s] starts with a regular-expression line terminator, which [.] does
    not match: line feed, carriage return, U+2028 or U+2029 (the bytes
    E2 80 A8 and E2 80 A9). *)
Definition line_terminator_at (s : string) : bool :=
  match s with
  | String a r =>
      let n := nat_of_ascii a in
      Nat.eqb n 10 || Nat.eqb n 13 ||
      (Nat.eqb n 226 &&
       match r with
       | String b (String c _) =>
           Nat.eqb (nat_of_ascii b) 128 &&
           (Nat.eqb (nat_of_ascii c) 168 || Nat.eqb (nat_of_ascii c) 169)
       | _ => false
       end)
  | EmptyString => false
  end.

Fixpoint str_drop (n : nat) (s : string) : string :=
  match n, s with
  | 0, _ => s
  | S n', String _ s' => str_drop n' s'
  | S _, EmptyString => EmptyString
  end.

(** The index in [s] of the last [')'] before the first line terminator
    (the backtracking of [.*\)]), offset by [idx]. *)
Fixpoint last_paren_before_eol (s : string) (idx : nat) (acc : option nat) : option nat :=
  match s with
  | EmptyString => acc
  | String c s' =>
      if line_terminator_at s then acc
      else last_paren_before_eol s' (S idx) (if Ascii.eqb c ")" then Some idx else acc)
  end.

(** The text after the match of [/\s\(media:.*\)/] that starts at the
    head of [s], if there is one. *)
Definition media_match_at (s : string) : option string :=
  match ws_step s with
  | Some r =>
      if String.prefix "(media:" r then
        match last_paren_before_eol (str_drop 7 r) 0 None with
        | Some k => Some (str_drop (S k) (str_drop 7 r))
        | None => None
        end
      else None
  | None => None
  end.

(** [s.replace(/\s\(media:.*\)/, '')]: the leftmost match is removed. *)
Fixpoint strip_media (s : string) : string :=
  match media_match_at s with
  | Some rest => rest
  | None =>
      match s with
      | EmptyString => EmptyString
      | String c s' => String c (strip_media s')
      end
  end.

Definition handleRerun (bundles : list BundledTemplate) (item : HistoryItem) (st : PrompterState)
    : PrompterState := {|
  p_prompt := strip_media (userPrompt item);
  p_isJsonMode := match config item with Some c => cfg_isJsonMode c | None => p_isJsonMode st end;
  p_useMarsLsp := match config item with Some c => cfg_useMarsLsp c | None => p_useMarsLsp st end;
  p_style := match config item with Some c => cfg_style c | None => p_style st end;
  p_length := match config item with Some c => cfg_length c | None => p_length st end;
  p_useReasoning := match config item with Some c => cfg_useReasoning c | None => p_useReasoning st end;
  p_selectedBundles := match referencedBundles item with
                       | Some ids => List.filter (fun b => includes ids (b_id b)) bundles
                       | None => []
                       end;
  p_selectedTags := [];
  p_selectedIndividualTemplates := [];
  p_media := None;
  p_view := PROMPTER |}.

(** [s] starts with a white space character followed by ["(media:"]. *)
Definition ws_media_at (s : string) : bool :=
  match ws_step s with
  | Some r => String.prefix "(media:" r
  | None => false
  end.

(** No white space character of [s] is followed by ["(media:"]. *)
Fixpoint media_marker_free (s : string) : bool :=
  match s with
  | EmptyString => true
  | String c s' => negb (ws_media_at s) && media_marker_free s'
  end.

Fixpoint no_line_terminator (s : string) : bool :=
  match s with
  | EmptyString => true
  | String c s' => negb (line_terminator_at s) && no_line_terminator s'
  end.

(* ------------------------------------------------------------------ *)
(** ** Prompt rows of the batch dialog ([BatchAddTemplatesModal], App.tsx
    lines 1758-1771) *)

Record PromptRow := { row_id : string; row_value : string }.

Definition addPromptInput (uuid : string) (prev : list PromptRow) : list PromptRow :=
  prev ++ [{| row_id := uuid; row_value := EmptyString |}].

Definition removePromptInput (id : string) (prev : list PromptRow) : list PromptRow :=
  if Nat.ltb 1 (length prev) then List.filter (fun p => negb (String.eqb (row_id p) id)) prev else prev.

Definition updatePromptValue (id value : string) (prev : list PromptRow) : list PromptRow :=
  map (fun p => if String.eqb (row_id p) id then {| row_id := row_id p; row_value := value |} else p) prev.

(** The prompt rows after the dialog opens on a row with id [uuid0] and
    the user adds ([crypto.randomUUID()] giving the id), removes and edits
    rows. *)
Inductive RowEdit :=
  | AddRow (uuid : string)
  | RemoveRow (id : string)
  | UpdateRow (id value : string).

Definition apply_row_edit (prev : list PromptRow) (e : RowEdit) : list PromptRow :=
  match e with
  | AddRow uuid => addPromptInput uuid prev
  | RemoveRow id => removePromptInput id prev
  | UpdateRow id value => updatePromptValue id value prev
  end.

Definition row_uuids (edits : list RowEdit) : list string :=
  flat_map (fun e => match e with AddRow u => [u] | _ => [] end) edits.

Definition batch_rows_session (uuid0 : string) (edits : list RowEdit) : list PromptRow :=
  fold_left apply_row_edit edits [{| row_id := uuid0; row_value := EmptyString |}].

(* ------------------------------------------------------------------ *)
(** ** Template filters ([TemplatesView], App.tsx lines 1329-1335, and
    [QuickAddPanel], lines 512-524) *)

(** [String.prototype.toLowerCase] on the letters A-Z; the case mapping of
    letters outside ASCII is not modelled, and they are left unchanged. *)
Definition lower_ascii (c : ascii) : ascii :=
  let n := nat_of_ascii c in
  if Nat.leb 65 n && Nat.leb n 90 then ascii_of_nat (n + 32) else c.

Fixpoint to_lower (s : string) : string :=
  match s with
  | EmptyString => EmptyString
  | String c s' => String (lower_ascii c) (to_lower s')
  end.

(** [selectedTags.length === 0 || selectedTags.every(tag => t.tags.includes(tag))] *)
Definition matchesTags (selectedTags : list string) (t : PromptTemplate) : bool :=
  Nat.eqb (length selectedTags) 0 || forallb (fun tag => includes (tags t) tag) selectedTags.

Definition templatesView_filteredTemplates (templates : list PromptTemplate) (searchTerm : string)
    (selectedTags : list string) : list PromptTemplate :=
  List.filter (fun t =>
    (contains (to_lower searchTerm) (to_lower (title t)) ||
     contains (to_lower searchTerm) (to_lower (description t))) &&
    matchesTags selectedTags t) templates.

Definition quickAdd_filteredTemplates (allTemplates : list PromptTemplate) (search : string)
    (selectedFilterTags : list string) : list PromptTemplate :=
  List.filter (fun t =>
    let searchLower := to_lower search in
    (contains searchLower (to_lower (title t)) ||
     contains searchLower (to_lower (description t)) ||
     contains searchLower (to_lower (prompt t))) &&
    matchesTags selectedFilterTags t) allTemplates.

(* ------------------------------------------------------------------ *)
(** ** The tag lists ([allTags], App.tsx lines 2052-2056, also in
    [TemplatesView] and [VisualBundleEditorModal]; [allFilterableTags] of
    [QuickAddPanel], line 507) *)

(** The default order of [Array.prototype.sort]: UTF-16 code units, which
    is the byte order of the representations of the strings. *)
Definition code_unit_le (a b : string) : Prop := String.leb a b = true.

#[global] Instance code_unit_le_dec : RelDecision code_unit_le :=
  fun a b => decide (String.leb a b = true).

(** [Array.from(new Set(all tags of all templates)).sort()] *)
Definition allTags (templates : list PromptTemplate) : list string :=
  merge_sort code_unit_le (set_of (flat_map tags templates)).

(** [Array.from(tagUsageCounts.keys()).sort()] *)
Definition quickAdd_allFilterableTags (tagUsageCounts : list (string * nat)) : list string :=
  merge_sort code_unit_le (map fst tagUsageCounts).

(** A prompter state for concrete runs. *)
Definition idle_prompter : PrompterState := {|
  p_prompt := EmptyString; p_isJsonMode := true; p_useMarsLsp := true; p_style := Anime;
  p_length := Long; p_useReasoning := true; p_selectedTags := ["x"]; p_selectedBundles := [];
  p_selectedIndividualTemplates := []; p_media := Some "old.png"; p_view := HISTORY |}.

(* ================================================================== *)
(** * Proofs *)

(** ** Helper facts about [JsMap] and [dedup_after] *)

Lemma includes_spec (xs : list string) (x : string) : includes xs x = true <-> In x xs.
Proof.
  unfold includes. rewrite existsb_exists. split.
  - intros (y & Hy & Heq). apply String.eqb_eq in Heq. subst. exact Hy.
  - intros H. exists x. split; [exact H | apply String.eqb_refl].
Qed.

Lemma includes_false (xs : list string) (x : string) : includes xs x = false <-> ~ In x xs.
Proof.
  rewrite <- includes_spec. destruct (includes xs x); split; congruence.
Qed.

Lemma jsmap_set_keys {V} (m : list (string * V)) k v :
  map fst (JsMap.set m k v) =
  if includes (map fst m) k then map fst m else map fst m ++ [k].
Proof.
  induction m as [|[k' v'] m IH]; simpl; [reflexivity|].
  unfold includes at 1. simpl. destruct (String.eqb k k') eqn:E; simpl.
  - apply String.eqb_eq in E. subst. reflexivity.
  - rewrite IH. fold (includes (map fst m) k). destruct (includes (map fst m) k); reflexivity.
Qed.

Lemma jsmap_fold_keys {V} (es : list (string * V)) (m : list (string * V)) :
  map fst (foldl (fun m e => JsMap.set m e.1 e.2) m es) =
  map fst m ++ dedup_after (map fst m) (map fst es).
Proof.
  revert m. induction es as [|[k v] es IH]; intros m; simpl.
  - rewrite app_nil_r. reflexivity.
  - rewrite IH, jsmap_set_keys. destruct (includes (map fst m) k); [reflexivity|].
    rewrite <- app_assoc. reflexivity.
Qed.

Lemma dedup_after_nodup (seen l : list string) :
  NoDup seen -> NoDup (seen ++ dedup_after seen l).
Proof.
  revert seen. induction l as [|k l IH]; intros seen Hs; simpl.
  - rewrite app_nil_r. exact Hs.
  - destruct (includes seen k) eqn:E; [apply IH, Hs|].
    apply includes_false in E.
    replace (seen ++ k :: dedup_after (seen ++ [k]) l)
      with ((seen ++ [k]) ++ dedup_after (seen ++ [k]) l)
      by (rewrite <- app_assoc; reflexivity).
    apply IH. apply NoDup_app. split; [exact Hs|]. split.
    + intros x Hx Hx'. apply list_elem_of_In in Hx'. simpl in Hx'.
      destruct Hx' as [<-|[]]. apply E. apply list_elem_of_In. exact Hx.
    + apply NoDup_singleton.
Qed.

Lemma dedup_after_in (seen l : list string) x :
  In x (seen ++ dedup_after seen l) <-> In x seen \/ In x l.
Proof.
  revert seen. induction l as [|k l IH]; intros seen; simpl.
  - rewrite app_nil_r. tauto.
  - destruct (includes seen k) eqn:E.
    + apply includes_spec in E. rewrite IH. split; [tauto|].
      intros [H|[<-|H]]; auto.
    + replace (seen ++ k :: dedup_after (seen ++ [k]) l)
        with ((seen ++ [k]) ++ dedup_after (seen ++ [k]) l)
        by (rewrite <- app_assoc; reflexivity).
      rewrite IH, in_app_iff. simpl. tauto.
Qed.

(** Every entry of a map built from [(t_id t, t)] pairs is keyed by its
    record's identifier. *)
Lemma jsmap_set_keyed (m : list (string * PromptTemplate)) t :
  Forall (fun e => t_id e.2 = e.1) m ->
  Forall (fun e => t_id e.2 = e.1) (JsMap.set m (t_id t) t).
Proof.
  induction m as [|[k v] m IH]; intros Hm; simpl.
  - constructor; [reflexivity | constructor].
  - inversion Hm as [|? ? Hkv Hrest]; subst.
    destruct (String.eqb (t_id t) k).
    + constructor; [reflexivity | exact Hrest].
    + constructor; [exact Hkv | apply IH, Hrest].
Qed.

Lemma jsmap_fold_keyed (ts : list PromptTemplate) m :
  Forall (fun e => t_id e.2 = e.1) m ->
  Forall (fun e => t_id e.2 = e.1)
    (foldl (fun m e => JsMap.set m e.1 e.2) m (map (fun item => (t_id item, item)) ts)).
Proof.
  revert m. induction ts as [|t ts IH]; intros m Hm; simpl; [exact Hm|].
  apply IH, jsmap_set_keyed, Hm.
Qed.

Lemma jsmap_set_values {V} (m : list (string * V)) k v x :
  In x (JsMap.values (JsMap.set m k v)) -> In x (JsMap.values m) \/ x = v.
Proof.
  unfold JsMap.values. induction m as [|[k' v'] m IH]; simpl.
  { intros [<-|[]]. auto. }
  destruct (String.eqb k k'); simpl.
  { intros [<-|H]; auto. }
  intros [H|H]; [auto|]. destruct (IH H); auto.
Qed.

Lemma jsmap_fold_values {V} (es : list (string * V)) m x :
  In x (JsMap.values (foldl (fun m e => JsMap.set m e.1 e.2) m es)) ->
  In x (JsMap.values m) \/ In x (map snd es).
Proof.
  revert m. induction es as [|[k v] es IH]; intros m H; simpl in *; [auto|].
  destruct (IH _ H) as [H1|H1]; [|auto].
  destruct (jsmap_set_values m k v x H1); auto.
Qed.

Lemma keyed_values_ids (m : list (string * PromptTemplate)) :
  Forall (fun e => t_id e.2 = e.1) m -> map t_id (JsMap.values m) = map fst m.
Proof.
  unfold JsMap.values. induction 1 as [|[k v] m Hkv _ IH]; simpl in *; [reflexivity|].
  rewrite Hkv, IH. reflexivity.
Qed.

(** ** C1: the reference resolver *)

(** Claim C1: the resolved references contain each qualifying template
    (selected by tag, by bundle or individually) exactly once by
    identifier, the identifiers come in first-seen order, and every
    resolved record is one of the qualifying records. In particular an
    individually selected template that matches no tag or bundle appears
    exactly once. *)
Theorem reference_resolver_dedup (allTemplates : list PromptTemplate)
    (selectedTags : list string) (selectedBundles : list BundledTemplate)
    (selectedIndividualTemplates : list PromptTemplate) :
  let q := qualifying allTemplates selectedTags selectedBundles selectedIndividualTemplates in
  let out := allReferencedTemplates allTemplates selectedTags selectedBundles
               selectedIndividualTemplates in
  map t_id out = dedup_after [] (map t_id q) /\
  NoDup (map t_id out) /\
  (forall t, In t q -> count_occ String.string_dec (map t_id out) (t_id t) = 1) /\
  (forall x, In x out -> In x q).
Proof.
  intros q out.
  assert (Hids : map t_id out = dedup_after [] (map t_id q)).
  { unfold out, allReferencedTemplates, JsMap.of_entries. fold q.
    rewrite keyed_values_ids by (apply jsmap_fold_keyed; constructor).
    rewrite jsmap_fold_keys, map_map. simpl. reflexivity. }
  assert (Hnd : NoDup (map t_id out)).
  { rewrite Hids. apply (dedup_after_nodup [] _), NoDup_nil_2. }
  split; [exact Hids|]. split; [exact Hnd|]. split.
  - intros t Ht. apply NoDup_ListNoDup in Hnd.
    apply (proj1 (NoDup_count_occ' String.string_dec _) Hnd).
    rewrite Hids. apply (dedup_after_in [] _). right. apply in_map, Ht.
  - intros x Hx. unfold out, allReferencedTemplates, JsMap.of_entries in Hx. fold q in Hx.
    destruct (jsmap_fold_values _ [] x Hx) as [[]|H].
    rewrite map_map in H. simpl in H. rewrite map_id in H. exact H.
Qed.

Lemma string_app_assoc (a b c : string) : (a +:+ b) +:+ c = a +:+ b +:+ c.
Proof. induction a as [|ch a IH]; [reflexivity | exact (f_equal (String ch) IH)]. Qed.

(** ** C7: the length line of the controls footer *)

Lemma controls_footer_length_line j m st len :
  contains "length: " (controls_footer j m st len) = (j || m) /\
  ((j || m) = true ->
     contains ("length: " +:+ length_to_string len +:+ nl) (controls_footer j m st len) = true).
Proof. destruct j, m, st, len; (split; [|intros H]); vm_compute; try reflexivity; discriminate. Qed.

Lemma controls_footer_flags j m st len :
  contains ("jsonModeEnabled: " +:+ bool_to_string j +:+ nl) (controls_footer j m st len) = true /\
  contains ("marsLspEnabled: " +:+ bool_to_string m +:+ nl) (controls_footer j m st len) = true /\
  contains ("style: " +:+ style_to_string st +:+ nl) (controls_footer j m st len) = true.
Proof. destruct j, m, st, len; vm_compute; repeat split. Qed.

(** Claim C7: the user request part of every generation request consists
    of the reference block, the controls footer and the user's prompt;
    the footer has a length line (with the length value) exactly when JSON
    mode or MARS-LSP mode is on, and always has the jsonModeEnabled,
    marsLspEnabled and style lines. *)
Theorem request_length_line_iff_json_or_mars (SYSTEM_PROMPT : string)
    (media : option MediaData) (refs : option (list PromptTemplate))
    (isJsonMode useMarsLsp : bool) (style : Style) (length : Length) (p : string) :
  let footer := controls_footer isJsonMode useMarsLsp style length in
  last (request_parts SYSTEM_PROMPT media refs isJsonMode useMarsLsp style length p)
    = Some (TextPart (references_block refs +:+ footer +:+ user_request_tail p)) /\
  contains "length: " footer = (isJsonMode || useMarsLsp) /\
  ((isJsonMode || useMarsLsp) = true ->
     contains ("length: " +:+ length_to_string length +:+ nl) footer = true) /\
  contains ("jsonModeEnabled: " +:+ bool_to_string isJsonMode +:+ nl) footer = true /\
  contains ("marsLspEnabled: " +:+ bool_to_string useMarsLsp +:+ nl) footer = true /\
  contains ("style: " +:+ style_to_string style +:+ nl) footer = true.
Proof.
  intros footer.
  destruct (controls_footer_length_line isJsonMode useMarsLsp style length) as [H1 H2].
  destruct (controls_footer_flags isJsonMode useMarsLsp style length) as (H3 & H4 & H5).
  split; [|tauto].
  unfold request_parts. destruct media; reflexivity.
Qed.

(** ** C8: serialisation of the reference templates *)


(** Claim C8 fails as worded: for a template titled [T] with body [P], the
    request text does not contain [REFERENCE TEMPLATE: T\nP]; the code
    writes [--- REFERENCE TEMPLATE: "T" ---\nP]. *)
Lemma reference_format_counterexample :
  contains (spec_reference_entry sample_template)
    (userRequestText (Some [sample_template]) false false StyleDefault LengthDefault "idea")
  = false /\
  contains (reference_entry sample_template)
    (userRequestText (Some [sample_template]) false false StyleDefault LengthDefault "idea")
  = true.
Proof. vm_compute. split; reflexivity. Qed.

(** Claim C8 (amended): each reference is serialised as
    [--- REFERENCE TEMPLATE: "<title>" ---] followed by a newline and the
    prompt body; the entries are joined by blank lines, preceded by the
    instruction [Use the following templates as creative inspiration:] and
    a blank line, and followed by a blank line, all before the controls
    footer. With no references (absent or empty list) the request text
    starts directly with the controls footer. *)
Theorem reference_block_format (refs : list PromptTemplate)
    (isJsonMode useMarsLsp : bool) (style : Style) (length : Length) (p : string) :
  (refs <> [] ->
   userRequestText (Some refs) isJsonMode useMarsLsp style length p =
     "Use the following templates as creative inspiration:" +:+ nl +:+ nl
     +:+ String.concat (nl +:+ nl)
           (map (fun t => "--- REFERENCE TEMPLATE: " +:+ dq +:+ title t +:+ dq +:+ " ---"
                          +:+ nl +:+ prompt t) refs)
     +:+ nl +:+ nl
     +:+ controls_footer isJsonMode useMarsLsp style length +:+ user_request_tail p) /\
  userRequestText (Some []) isJsonMode useMarsLsp style length p =
    controls_footer isJsonMode useMarsLsp style length +:+ user_request_tail p /\
  userRequestText None isJsonMode useMarsLsp style length p =
    controls_footer isJsonMode useMarsLsp style length +:+ user_request_tail p.
Proof.
  split; [|split; reflexivity].
  intros Hne. destruct refs as [|t rs]; [congruence|].
  unfold userRequestText, references_block.
  rewrite !string_app_assoc. reflexivity.
Qed.

(** ** C2: committing a generation to the history *)

Lemma string_app_nil_r (s : string) : s +:+ EmptyString = s.
Proof. induction s as [|ch s IH]; [reflexivity | exact (f_equal (String ch) IH)]. Qed.

Lemma is_empty_string_true (s : string) : is_empty_string s = true <-> s = EmptyString.
Proof. unfold is_empty_string. apply String.eqb_eq. Qed.

Lemma consume_spec (cs : list (option string)) (full shown : string) :
  consume cs full shown = (full +:+ concat_fragments cs, shown +:+ concat_fragments cs).
Proof.
  revert full shown. induction cs as [|[text|] cs IH]; intros full shown; simpl.
  - rewrite !string_app_nil_r. reflexivity.
  - destruct (is_empty_string text) eqn:E.
    + apply is_empty_string_true in E. subst text. apply IH.
    + rewrite IH, !string_app_assoc. reflexivity.
  - apply IH.
Qed.






Example handleSubmit_abc :
  m_history (sr_app (handleSubmit (sample_input "idea" None) (world_of (StreamReturns abc_stream))
                       (app_with_key "k") idle_ui))
  = [new_history_item (sample_input "idea" None) (world_of (StreamReturns abc_stream)) [] "ABC"].
Proof. reflexivity. Qed.

Example handleSubmit_no_fragments :
  m_history (sr_app (handleSubmit (sample_input "idea" None)
                       (world_of (StreamReturns {| chunks := []; stream_end := StreamDone |}))
                       (app_with_key "k") idle_ui)) = [].
Proof. reflexivity. Qed.

Lemma handleSubmit_app_cases i w a ui :
  sr_app (handleSubmit i w a ui) = a \/
  exists st, w_stream w = StreamReturns st /\ stream_end st = StreamDone /\
    concat_fragments (chunks st) <> EmptyString /\
    sr_app (handleSubmit i w a ui) =
      setHistory (fun prev => new_history_item i w
        (allReferencedTemplates (m_templates a) (s_selectedTags i)
                (s_selectedBundles i) (s_selectedIndividualTemplates i))
        (concat_fragments (chunks st)) :: prev) a.
Proof.
  unfold handleSubmit. repeat case_match; simpl; try (left; reflexivity).
  all: right; eexists; split; [reflexivity|].
  all: rewrite consume_spec in *; simplify_eq/=.
  all: split; [assumption|]; split; [|reflexivity].
  all: intros Hc; match goal with H : is_empty_string _ = false |- _ => rewrite Hc in H; discriminate end.
Qed.

Lemma handleSubmit_completes i w a ui st :
  (s_prompt i <> EmptyString \/ s_media i <> None) ->
  apiKeyToUse (s_isAistudio i) (m_settings a) (s_env_API_KEY i) <> EmptyString ->
  (s_media i = None \/ exists md, w_fileToBase64 w = inr md) ->
  w_stream w = StreamReturns st -> stream_end st = StreamDone ->
  concat_fragments (chunks st) <> EmptyString ->
  sr_app (handleSubmit i w a ui) =
      setHistory (fun prev => new_history_item i w
        (allReferencedTemplates (m_templates a) (s_selectedTags i)
                (s_selectedBundles i) (s_selectedIndividualTemplates i))
        (concat_fragments (chunks st)) :: prev) a.
Proof.
  intros Hin Hk Hmd Hs He Hc. unfold handleSubmit.
  assert (E1 : is_empty_string (s_prompt i) && (match s_media i with None => true | Some _ => false end) = false).
  { destruct Hin as [Hp|Hm].
    - destruct (is_empty_string (s_prompt i)) eqn:E; [apply is_empty_string_true in E; contradiction|reflexivity].
    - destruct (s_media i); [apply andb_false_r|congruence]. }
  rewrite E1.
  destruct (is_empty_string (apiKeyToUse (s_isAistudio i) (m_settings a) (s_env_API_KEY i))) eqn:E2;
    [apply is_empty_string_true in E2; contradiction|].
  assert (E3 : exists mo, (match s_media i with
         | Some _ => match w_fileToBase64 w with inl e => inl e | inr md => inr (Some md) end
         | None => inr None
         end) = (inr mo : string + option MediaData)).
  { destruct Hmd as [Hn|[md Hmd]]; rewrite ?Hn; [eauto|].
    destruct (s_media i); [rewrite Hmd|]; eauto. }
  destruct E3 as [mo E3]. rewrite E3, Hs, consume_spec. simpl. rewrite He.
  destruct (is_empty_string (EmptyString +:+ concat_fragments (chunks st))) eqn:E4;
    [apply is_empty_string_true in E4; contradiction|reflexivity].
Qed.

Lemma handleSubmit_setup_failure i w a ui :
  ((s_prompt i = EmptyString /\ s_media i = None) \/
   apiKeyToUse (s_isAistudio i) (m_settings a) (s_env_API_KEY i) = EmptyString \/
   (exists e, s_media i <> None /\ w_fileToBase64 w = inl e)) ->
  sr_app (handleSubmit i w a ui) = a.
Proof.
  intros H. unfold handleSubmit.
  destruct H as [[Hp Hm]|[Hk|(e & Hm & He)]].
  - rewrite Hp, Hm. reflexivity.
  - rewrite Hk. destruct (_ && _); reflexivity.
  - destruct (s_media i) as [f|]; [|congruence]. rewrite He.
    destruct (_ && _); [reflexivity|]. destruct (is_empty_string _); reflexivity.
Qed.

(** Claim C2: a run of [handleSubmit] either leaves the history (in memory
    and in the store) unchanged, or adds exactly one record, and only when
    the stream completed with non-empty accumulated text; that record's
    [generatedPrompt] is the concatenation of the fragments in arrival
    order. A completed stream with non-empty text after a successful setup
    always adds the record; a missing input, a missing key or a failing
    media conversion leaves the history unchanged. *)
Theorem handleSubmit_history_commit (i : SubmitInput) (w : SubmitWorld) (a : App)
    (ui : PrompterUI) :
  let r := handleSubmit i w a ui in
  ((m_history (sr_app r) = m_history a /\ db_history (sr_app r) = db_history a)
   \/ (exists st rec, w_stream w = StreamReturns st /\ stream_end st = StreamDone /\
        concat_fragments (chunks st) <> EmptyString /\
        generatedPrompt rec = concat_fragments (chunks st) /\
        m_history (sr_app r) = rec :: m_history a /\
        db_history (sr_app r) = store_of h_id (rec :: m_history a))) /\
  (forall st, (s_prompt i <> EmptyString \/ s_media i <> None) ->
     apiKeyToUse (s_isAistudio i) (m_settings a) (s_env_API_KEY i) <> EmptyString ->
     (s_media i = None \/ exists md, w_fileToBase64 w = inr md) ->
     w_stream w = StreamReturns st -> stream_end st = StreamDone ->
     concat_fragments (chunks st) <> EmptyString ->
     exists rec, m_history (sr_app r) = rec :: m_history a /\
                 generatedPrompt rec = concat_fragments (chunks st)) /\
  ((s_prompt i = EmptyString /\ s_media i = None) \/
   apiKeyToUse (s_isAistudio i) (m_settings a) (s_env_API_KEY i) = EmptyString \/
   (exists e, s_media i <> None /\ w_fileToBase64 w = inl e) ->
   m_history (sr_app r) = m_history a /\ db_history (sr_app r) = db_history a).
Proof.
  intros r. split; [|split].
  - destruct (handleSubmit_app_cases i w a ui) as [H|(st & Hs & He & Hc & H)];
      unfold r; rewrite H; [left; split; reflexivity|].
    right. eexists st, _. repeat split; try eassumption; reflexivity.
  - intros st Hin Hk Hmd Hs He Hc. unfold r.
    rewrite (handleSubmit_completes i w a ui st Hin Hk Hmd Hs He Hc).
    eexists. split; reflexivity.
  - intros H. unfold r. rewrite (handleSubmit_setup_failure i w a ui H). split; reflexivity.
Qed.

(** A concrete run of [handleSubmit_history_commit]: the stream
    ["A"; "B"; "C"] adds one record whose [generatedPrompt] is ["ABC"]. *)
Lemma handleSubmit_history_commit_witness :
  exists rec, m_history (sr_app (handleSubmit (sample_input "idea" None)
                                   (world_of (StreamReturns abc_stream)) (app_with_key "k") idle_ui))
              = rec :: [] /\ generatedPrompt rec = "ABC".
Proof.
  destruct (handleSubmit_history_commit (sample_input "idea" None)
              (world_of (StreamReturns abc_stream)) (app_with_key "k") idle_ui) as (_ & H2 & _).
  destruct (H2 abc_stream) as (rec & Hh & Hg).
  - left. discriminate.
  - discriminate.
  - left. reflexivity.
  - reflexivity.
  - reflexivity.
  - discriminate.
  - exists rec. split; [exact Hh | exact Hg].
Defined.

Lemma build_templates_spec uuid (meta : list Metadata) (ps : list string) (k : nat) :
  k + length ps <= length meta ->
  exists ts, build_templates uuid meta k ps = Some ts /\ length ts = length ps /\
    forall j p, nth_error ps j = Some p ->
      exists md t, nth_error meta (k + j) = Some md /\ nth_error ts j = Some t /\
        prompt t = p /\ title t = md_title md /\ description t = md_description md /\
        tags t = md_tags md.
Proof.
  revert k. induction ps as [|p ps IH]; intros k Hlen; simpl.
  - exists []. split; [reflexivity|]. split; [reflexivity|]. intros [|j] ? H; discriminate.
  - simpl in Hlen.
    destruct (nth_error meta k) as [md|] eqn:Hk;
      [|apply nth_error_None in Hk; lia].
    destruct (IH (S k)) as (ts & Hb & Hl & Hts); [lia|].
    rewrite Hb. eexists. split; [reflexivity|]. split; [simpl; congruence|].
    intros [|j] q Hq; simpl in Hq.
    + injection Hq as <-. exists md. eexists. rewrite Nat.add_0_r.
      split; [exact Hk|]. repeat split; reflexivity.
    + destruct (Hts j q Hq) as (md' & t & H1 & H2 & H3). exists md', t.
      rewrite Nat.add_succ_r. simpl. auto.
Qed.

(** ** C5: the batch add is all or nothing *)

(** Claim C5: when the metadata response has a different number of results
    than the N non-blank prompts (or none at all), nothing is saved, the
    modal stays open and an error toast is shown; when it has exactly N
    results (N > 0, key present), exactly N templates are created and put
    in front of the existing ones, the j-th pairing the j-th prompt with the
    j-th result. *)
Theorem batch_metadata_all_or_nothing (i : BatchInput) (resp : BatchCall) (uuid : nat -> string)
    (a : App) :
  let N := length (nonEmptyPrompts i) in
  let r := handleGenerateAndSave i resp uuid a in
  ((forall ts, resp = BatchReturns (Some ts) -> length ts <> N) \/ resp = BatchReturns None ->
     br_app r = a /\ br_closed r = false /\ exists msg, br_toast r = Some (ToastError msg)) /\
  (forall ts, resp = BatchReturns (Some ts) -> length ts = N -> N <> 0 ->
     apiKeyToUse (bi_isAistudio i) (m_settings a) (bi_env_API_KEY i) <> EmptyString ->
     exists newTemplates,
       br_app r = setTemplates (fun prev => newTemplates ++ prev) a /\
       m_templates (br_app r) = newTemplates ++ m_templates a /\
       length newTemplates = N /\
       forall j p, nth_error (nonEmptyPrompts i) j = Some p ->
         exists md t, nth_error ts j = Some md /\ nth_error newTemplates j = Some t /\
           prompt t = p /\ title t = md_title md /\ description t = md_description md /\
           tags t = md_tags md).
Proof.
  intros N r. split.
  - intros Hbad. unfold r, handleGenerateAndSave.
    destruct (Nat.eqb (length (nonEmptyPrompts i)) 0); [repeat split; eauto|].
    destruct (is_empty_string _); [repeat split; eauto|].
    unfold generateBatchTemplateMetadata.
    destruct Hbad as [Hbad | Hnone]; [|rewrite Hnone; repeat split; eauto].
    destruct resp as [msg|[ts|]]; try (repeat split; eauto; fail).
    specialize (Hbad ts eq_refl).
    destruct (Nat.eqb (length ts) (length (nonEmptyPrompts i))) eqn:E;
      [apply Nat.eqb_eq in E; contradiction|].
    simpl. repeat split; eauto.
  - intros ts -> Hlen HN Hk. unfold r, handleGenerateAndSave.
    destruct (Nat.eqb (length (nonEmptyPrompts i)) 0) eqn:E0; [apply Nat.eqb_eq in E0; contradiction|].
    destruct (is_empty_string _) eqn:Ek; [apply is_empty_string_true in Ek; contradiction|].
    unfold generateBatchTemplateMetadata. fold N. rewrite Hlen, Nat.eqb_refl. simpl.
    destruct (build_templates_spec uuid ts (nonEmptyPrompts i) 0) as (nt & Hb & Hl & Hnt); [lia|].
    rewrite Hb. exists nt. split; [reflexivity|]. split; [reflexivity|]. split; [exact Hl|].
    exact Hnt.
Qed.




(** The specification's example: three prompts, two results, nothing saved. *)
Lemma batch_metadata_all_or_nothing_witness :
  br_app (handleGenerateAndSave three_prompts
            (BatchReturns (Some [sample_metadata; sample_metadata])) uuid_of (app_with_key "k"))
  = app_with_key "k".
Proof.
  destruct (batch_metadata_all_or_nothing three_prompts
              (BatchReturns (Some [sample_metadata; sample_metadata])) uuid_of (app_with_key "k"))
    as [H1 _].
  apply H1. left. intros ts Hts. injection Hts as <-. vm_compute. intros H. discriminate.
Defined.

(** A row holding only a no-break space is blank for [trim]: only "p1" is
    sent, so two metadata results fail the count check and nothing is
    saved. *)
Lemma nbsp_row_not_sent :
  nonEmptyPrompts nbsp_row_input = ["p1"] /\
  br_app (handleGenerateAndSave nbsp_row_input
            (BatchReturns (Some [sample_metadata; sample_metadata])) uuid_of (app_with_key "k"))
  = app_with_key "k" /\
  br_closed (handleGenerateAndSave nbsp_row_input
               (BatchReturns (Some [sample_metadata; sample_metadata])) uuid_of (app_with_key "k"))
  = false.
Proof. vm_compute. split; [reflexivity|]. split; reflexivity. Qed.

(** ** C9: a missing API key *)

(** Claim C9 fails as worded: with an empty prompt, no media and no key,
    [handleSubmit] reports the missing input, not the missing key. *)
Lemma missing_key_empty_input_counterexample :
  let r := handleSubmit (sample_input EmptyString None) (world_of (StreamReturns abc_stream))
             (app_with_key EmptyString) idle_ui in
  sr_stream_calls r = 0 /\
  ui_error (sr_ui r) = Some "Please enter a prompt or upload media." /\
  ui_error (sr_ui r) <> Some "API Key is missing. Please configure it in settings.".
Proof. vm_compute. split; [reflexivity|]. split; [reflexivity|]. discriminate. Qed.

(** Claim C9 (amended): with a missing API key no generating handler makes
    a request and nothing is saved. [handleSubmit] and the batch add report
    the missing key, except when their input is empty, where the input
    error is reported instead; saving a history item as a template reports
    the missing key. Every run of each handler makes at most one request:
    there is no retry. *)
Theorem api_key_missing_fails_fast :
  (forall i w a ui,
     apiKeyToUse (s_isAistudio i) (m_settings a) (s_env_API_KEY i) = EmptyString ->
     sr_stream_calls (handleSubmit i w a ui) = 0 /\ sr_app (handleSubmit i w a ui) = a /\
     ui_error (sr_ui (handleSubmit i w a ui)) =
       Some (if is_empty_string (s_prompt i) && (match s_media i with None => true | Some _ => false end)
             then "Please enter a prompt or upload media."
             else "API Key is missing. Please configure it in settings.")) /\
  (forall i w a ui, sr_stream_calls (handleSubmit i w a ui) <= 1) /\
  (forall i resp uuid a,
     apiKeyToUse (bi_isAistudio i) (m_settings a) (bi_env_API_KEY i) = EmptyString ->
     br_calls (handleGenerateAndSave i resp uuid a) = 0 /\ br_app (handleGenerateAndSave i resp uuid a) = a /\
     br_toast (handleGenerateAndSave i resp uuid a) =
       Some (ToastError (if Nat.eqb (length (nonEmptyPrompts i)) 0
                         then "Please add at least one prompt."
                         else "API Key is missing. Please configure it in settings."))) /\
  (forall i resp uuid a, br_calls (handleGenerateAndSave i resp uuid a) <= 1) /\
  (forall isAistudio env item resp uuid a,
     apiKeyToUse isAistudio (m_settings a) env = EmptyString ->
     sv_calls (handleSaveTemplateFromHistory isAistudio env item resp uuid a) = 0 /\
     sv_app (handleSaveTemplateFromHistory isAistudio env item resp uuid a) = a /\
     sv_toast (handleSaveTemplateFromHistory isAistudio env item resp uuid a) =
       ToastError "API key is missing.") /\
  (forall isAistudio env item resp uuid a,
     sv_calls (handleSaveTemplateFromHistory isAistudio env item resp uuid a) <= 1).
Proof.
  split; [|split; [|split; [|split; [|split]]]].
  - intros i w a ui Hk. unfold handleSubmit. rewrite Hk.
    destruct (_ && _); simpl; repeat split.
  - intros i w a ui. unfold handleSubmit. repeat case_match; simpl; lia.
  - intros i resp uuid a Hk. unfold handleGenerateAndSave. rewrite Hk.
    destruct (Nat.eqb _ 0); simpl; repeat split.
  - intros i resp uuid a. unfold handleGenerateAndSave. repeat case_match; simpl; lia.
  - intros isA env item resp uuid a Hk. unfold handleSaveTemplateFromHistory. rewrite Hk.
    repeat split.
  - intros isA env item resp uuid a. unfold handleSaveTemplateFromHistory.
    repeat case_match; simpl; lia.
Qed.

(** A concrete run of [api_key_missing_fails_fast]: a prompt with no key. *)
Lemma api_key_missing_fails_fast_witness :
  sr_stream_calls (handleSubmit (sample_input "idea" None) (world_of (StreamReturns abc_stream))
                     (app_with_key EmptyString) idle_ui) = 0 /\
  ui_error (sr_ui (handleSubmit (sample_input "idea" None) (world_of (StreamReturns abc_stream))
                     (app_with_key EmptyString) idle_ui))
  = Some "API Key is missing. Please configure it in settings.".
Proof.
  destruct api_key_missing_fails_fast as [H1 _].
  destruct (H1 (sample_input "idea" None) (world_of (StreamReturns abc_stream))
              (app_with_key EmptyString) idle_ui) as (Hc & _ & He); [reflexivity|].
  split; [exact Hc | rewrite He; reflexivity].
Defined.

(* ------------------------------------------------------------------ *)
(** ** Import merge *)

Lemma filter_all_false {A} (f : A -> bool) (l : list A) :
  (forall x, In x l -> f x = false) -> List.filter f l = [].
Proof.
  induction l as [|x l IH]; intros H; simpl; [reflexivity|].
  rewrite (H x (or_introl eq_refl)). apply IH. intros y Hy. apply H. right. exact Hy.
Qed.

Lemma merge_by_id_spec {A} (key : A -> string) (prev incoming : list A) :
  exists added, merge_by_id key prev incoming = prev ++ added /\
    forall x, In x added <-> In x incoming /\ ~ In (key x) (map key prev).
Proof.
  eexists. split; [reflexivity|]. intros x. rewrite filter_In, negb_true_iff, includes_false.
  reflexivity.
Qed.

Lemma merge_by_id_idem {A} (key : A -> string) (prev incoming : list A) :
  merge_by_id key (merge_by_id key prev incoming) incoming = merge_by_id key prev incoming.
Proof.
  unfold merge_by_id at 1. rewrite filter_all_false; [apply app_nil_r|].
  intros x Hx. apply negb_false_iff, includes_spec.
  unfold merge_by_id. rewrite map_app, in_app_iff.
  destruct (includes (map key prev) (key x)) eqn:E.
  - left. apply includes_spec, E.
  - right. apply in_map, filter_In. rewrite E. split; [exact Hx | reflexivity].
Qed.

Ltac case_import_options o d :=
  destruct (o_history o), (doc_history d) as [[hi|]|], (o_templates o), (doc_templates d) as [[ti|]|],
    (o_bundles o), (doc_bundles d) as [[bi|]|].

Lemma import_history_templates_comm o d a :
  import_history o d (import_templates o d a) = import_templates o d (import_history o d a).
Proof. unfold import_history, import_templates. case_import_options o d; reflexivity. Qed.

Lemma import_history_bundles_comm o d a :
  import_history o d (import_bundles o d a) = import_bundles o d (import_history o d a).
Proof. unfold import_history, import_bundles. case_import_options o d; reflexivity. Qed.

Lemma import_templates_bundles_comm o d a :
  import_templates o d (import_bundles o d a) = import_bundles o d (import_templates o d a).
Proof. unfold import_templates, import_bundles. case_import_options o d; reflexivity. Qed.

Lemma import_history_idem o d a :
  import_history o d (import_history o d a) = import_history o d a.
Proof.
  unfold import_history. destruct (o_history o), (doc_history d) as [[items|]|]; try reflexivity.
  unfold setHistory, writeHistory. cbn [m_history].
  rewrite merge_by_id_idem. reflexivity.
Qed.

Lemma import_templates_idem o d a :
  import_templates o d (import_templates o d a) = import_templates o d a.
Proof.
  unfold import_templates. destruct (o_templates o), (doc_templates d) as [[items|]|]; try reflexivity.
  unfold setTemplates, writeTemplates. cbn [m_templates].
  rewrite merge_by_id_idem. reflexivity.
Qed.

Lemma import_bundles_idem o d a :
  import_bundles o d (import_bundles o d a) = import_bundles o d a.
Proof.
  unfold import_bundles. destruct (o_bundles o), (doc_bundles d) as [[items|]|]; try reflexivity.
  unfold setBundles, writeBundles. cbn [m_bundles].
  rewrite merge_by_id_idem. reflexivity.
Qed.

Lemma import_settings_collections o d a :
  import_settings o d (import_bundles o d (import_templates o d (import_history o d a))) =
  match import_settings o d a with
  | Some a1 => Some (import_bundles o d (import_templates o d (import_history o d a1)))
  | None => None
  end.
Proof.
  unfold import_settings. destruct (o_settings o); [|reflexivity].
  destruct (doc_settings d) as [[|k v|]|]; try reflexivity.
  unfold import_history, import_templates, import_bundles.
  case_import_options o d; reflexivity.
Qed.

Lemma insert_twice_id (D : gmap string Settings) k u v :
  <[u := v]> (<[k := v]> (<[u := v]> (<[k := v]> D))) = <[u := v]> (<[k := v]> D).
Proof.
  assert (Hk : (<[u := v]> (<[k := v]> D) : gmap string Settings) !! k = Some v).
  { destruct (decide (u = k)) as [->|Hne]; [apply lookup_insert_eq|].
    rewrite lookup_insert_ne by exact Hne. apply lookup_insert_eq. }
  rewrite (insert_id _ k v Hk). apply insert_id, lookup_insert_eq.
Qed.

Lemma import_settings_idem o d a a1 :
  import_settings o d a = Some a1 -> import_settings o d a1 = Some a1.
Proof.
  unfold import_settings. destruct (o_settings o); [|congruence].
  destruct (doc_settings d) as [[|k v|]|]; intros H; try discriminate H;
    injection H as <-; try reflexivity.
  unfold setSettings, writeSettingsRecord. cbn [db_settings].
  rewrite insert_twice_id. reflexivity.
Qed.

Lemma import_settings_collections_unchanged o d a a0 :
  import_settings o d a = Some a0 ->
  m_history a0 = m_history a /\ m_templates a0 = m_templates a /\ m_bundles a0 = m_bundles a.
Proof.
  unfold import_settings. destruct (o_settings o); [|intros H; injection H as <-; auto].
  destruct (doc_settings d) as [[|k v|]|]; intros H; try discriminate H; injection H as <-; auto.
Qed.

(** Claim C3: the merge keeps every existing record and appends exactly
    the incoming records whose identifier is not already present; after an
    import each in-memory collection is either unchanged or that merge of
    its previous value; and importing the same document again leaves the
    application (memory and storage) unchanged. *)
Theorem import_merge_keeps_existing_idempotent :
  (forall (A : Type) (key : A -> string) (prev incoming : list A),
     exists added, merge_by_id key prev incoming = prev ++ added /\
       forall x, In x added <-> In x incoming /\ ~ In (key x) (map key prev)) /\
  (forall (o : DataOptions) (d : Doc) (a : App),
     let a1 := fst (handleImport o (PObject d) a) in
     (m_history a1 = m_history a \/
      exists items, doc_history d = Some (FArray items) /\
                    m_history a1 = merge_by_id h_id (m_history a) items) /\
     (m_templates a1 = m_templates a \/
      exists items, doc_templates d = Some (FArray items) /\
                    m_templates a1 = merge_by_id t_id (m_templates a) items) /\
     (m_bundles a1 = m_bundles a \/
      exists items, doc_bundles d = Some (FArray items) /\
                    m_bundles a1 = merge_by_id b_id (m_bundles a) items)) /\
  (forall (o : DataOptions) (d : Doc) (a : App),
     fst (handleImport o (PObject d) (fst (handleImport o (PObject d) a))) =
     fst (handleImport o (PObject d) a)).
Proof.
  split; [exact @merge_by_id_spec|]. split.
  - intros o d a a1. unfold a1, handleImport.
    destruct (import_settings o d a) as [a0|] eqn:Hs; cbn [fst];
      [|split; [left; reflexivity | split; left; reflexivity]].
    destruct (import_settings_collections_unchanged o d a a0 Hs) as (E1 & E2 & E3).
    unfold import_bundles, import_templates, import_history.
    split; [|split].
    + destruct (o_history o), (doc_history d) as [[items|]|];
      destruct (o_templates o), (doc_templates d) as [[ti|]|];
      destruct (o_bundles o), (doc_bundles d) as [[bi|]|];
      cbn [m_history setHistory setTemplates setBundles writeHistory writeTemplates writeBundles];
      rewrite ?E1; eauto.
    + destruct (o_history o), (doc_history d) as [[hi|]|];
      destruct (o_templates o), (doc_templates d) as [[items|]|];
      destruct (o_bundles o), (doc_bundles d) as [[bi|]|];
      cbn [m_templates setHistory setTemplates setBundles writeHistory writeTemplates writeBundles];
      rewrite ?E2; eauto.
    + destruct (o_history o), (doc_history d) as [[hi|]|];
      destruct (o_templates o), (doc_templates d) as [[ti|]|];
      destruct (o_bundles o), (doc_bundles d) as [[items|]|];
      cbn [m_bundles setHistory setTemplates setBundles writeHistory writeTemplates writeBundles];
      rewrite ?E3; eauto.
  - intros o d a. unfold handleImport at 2.
    destruct (import_settings o d a) as [a0|] eqn:Hs; cbn [fst];
      [|unfold handleImport; rewrite Hs; reflexivity].
    unfold handleImport. rewrite import_settings_collections, Hs, (import_settings_idem o d a a0 Hs).
    cbn [fst].
    rewrite (import_history_bundles_comm o d), (import_history_templates_comm o d),
      import_history_idem.
    rewrite (import_templates_bundles_comm o d), import_templates_idem, import_bundles_idem.
    reflexivity.
Qed.

(* ------------------------------------------------------------------ *)
(** ** Import errors *)

(** Claim C4 (amended): a file that does not parse aborts the import with
    the single error toast and leaves the application unchanged; a file
    that parses to a value that is not an object leaves the application
    unchanged and reports that error when at least one collection is
    selected, and success when none is; a non-array value under a
    collection key is skipped exactly as if the key were absent; and an
    object is imported with success unless the settings step is selected
    and the settings store rejects the record. *)
Theorem import_aborts_only_on_parse_failure :
  (forall o a, handleImport o PMalformed a = (a, ToastError IMPORT_FAILED)) /\
  (forall o a, fst (handleImport o PNotObject a) = a /\
     snd (handleImport o PNotObject a) =
       if o_settings o || o_history o || o_templates o || o_bundles o
       then ToastError IMPORT_FAILED else ToastSuccess "Data imported successfully!") /\
  (forall o a s t b,
     handleImport o (PObject {| doc_settings := s; doc_history := Some FNotArray;
                                doc_templates := t; doc_bundles := b |}) a =
     handleImport o (PObject {| doc_settings := s; doc_history := None;
                                doc_templates := t; doc_bundles := b |}) a) /\
  (forall o a s h b,
     handleImport o (PObject {| doc_settings := s; doc_history := h;
                                doc_templates := Some FNotArray; doc_bundles := b |}) a =
     handleImport o (PObject {| doc_settings := s; doc_history := h;
                                doc_templates := None; doc_bundles := b |}) a) /\
  (forall o a s h t,
     handleImport o (PObject {| doc_settings := s; doc_history := h;
                                doc_templates := t; doc_bundles := Some FNotArray |}) a =
     handleImport o (PObject {| doc_settings := s; doc_history := h;
                                doc_templates := t; doc_bundles := None |}) a) /\
  (forall o a d, (o_settings o = false \/ doc_settings d <> Some SRejected) ->
     snd (handleImport o (PObject d) a) = ToastSuccess "Data imported successfully!").
Proof.
  split; [reflexivity|].
  split; [intros o a; unfold handleImport; destruct (_ || _ || _ || _); split; reflexivity|].
  split; [|split; [|split]].
  - intros o a s t b. unfold handleImport, import_settings, import_history. cbn.
    destruct (o_settings o), s as [[|k v|]|], (o_history o); reflexivity.
  - intros o a s h b. unfold handleImport, import_settings, import_templates. cbn.
    destruct (o_settings o), s as [[|k v|]|], (o_templates o); reflexivity.
  - intros o a s h t. unfold handleImport, import_settings, import_bundles. cbn.
    destruct (o_settings o), s as [[|k v|]|], (o_bundles o); reflexivity.
  - intros o a d H. unfold handleImport, import_settings.
    destruct (o_settings o); [|reflexivity].
    destruct (doc_settings d) as [[|k v|]|]; try reflexivity.
    destruct H as [H|H]; congruence.
Qed.

(** Claim C4 does not hold as worded: a non-array value under a selected
    collection key does not abort the import. Here [history] is not an
    array, yet the templates are imported (memory and store) and success is
    reported. *)
Lemma non_array_does_not_abort_counterexample :
  let r := handleImport all_options
             (PObject {| doc_settings := None; doc_history := Some FNotArray;
                         doc_templates := Some (FArray [sample_template]); doc_bundles := None |})
             (empty_app false) in
  m_templates (fst r) = [sample_template] /\
  db_templates (fst r) !! "t1" = Some sample_template /\
  snd r = ToastSuccess "Data imported successfully!".
Proof. vm_compute. repeat split. Qed.

(* ------------------------------------------------------------------ *)
(** ** Export then import *)

Lemma map_fst_fmap {B C : Type} (l : list (B * C)) : map fst l = l.*1.
Proof. induction l as [|x l IH]; simpl; [reflexivity|]. rewrite IH. reflexivity. Qed.

Section Store.
Context {A : Type} (key : A -> string).

Lemma store_of_from_keyed (l : list A) (m0 : gmap string A) :
  keyed key m0 -> keyed key (foldl (fun m item => <[key item := item]> m) m0 l).
Proof.
  revert m0. induction l as [|x l IH]; intros m0 Hm; simpl; [exact Hm|].
  apply IH. intros k v Hk. destruct (decide (key x = k)) as [<-|Hne].
  - rewrite lookup_insert_eq in Hk. injection Hk as <-. reflexivity.
  - rewrite lookup_insert_ne in Hk by exact Hne. exact (Hm k v Hk).
Qed.

Lemma store_of_keyed (l : list A) : keyed key (store_of key l).
Proof. apply store_of_from_keyed. intros k v H. rewrite lookup_empty in H. discriminate. Qed.

Lemma store_of_from_lookup (l : list A) (m0 : gmap string A) :
  List.NoDup (map key l) ->
  (forall x, In x l -> foldl (fun m item => <[key item := item]> m) m0 l !! key x = Some x) /\
  (forall k, ~ In k (map key l) -> foldl (fun m item => <[key item := item]> m) m0 l !! k = m0 !! k).
Proof.
  revert m0. induction l as [|x l IH]; intros m0 Hnd; simpl.
  - split; [intros _ []|reflexivity].
  - inversion Hnd as [|? ? Hx Hnd']; subst.
    destruct (IH (<[key x := x]> m0) Hnd') as [IH1 IH2]. split.
    + intros y [Hxy|Hy]; [subst y|exact (IH1 y Hy)].
      rewrite IH2 by exact Hx. apply lookup_insert_eq.
    + intros k Hk. rewrite IH2 by tauto. apply lookup_insert_ne. intros Heq. apply Hk. left. exact Heq.
Qed.

Lemma map_key_get_all (l : list (string * A)) :
  Forall (fun e => key e.2 = e.1) l -> map key (map snd l) = map fst l.
Proof. induction 1 as [|[k v] l Hkv _ IH]; simpl in *; [reflexivity|]. rewrite Hkv, IH. reflexivity. Qed.

Lemma store_of_get_all (m : gmap string A) : keyed key m -> store_of key (get_all m) = m.
Proof.
  intros Hm.
  assert (Hids : map key (get_all m) = map fst (map_to_list m)).
  { apply map_key_get_all. apply Forall_forall. intros [k v] Hin.
    apply Hm. apply elem_of_map_to_list. exact Hin. }
  assert (Hnd : List.NoDup (map key (get_all m))).
  { rewrite Hids. apply NoDup_ListNoDup.
    rewrite map_fst_fmap.
    apply NoDup_fst_map_to_list. }
  destruct (store_of_from_lookup (get_all m) ∅ Hnd) as [H1 H2].
  apply map_eq. intros k. unfold store_of.
  destruct (m !! k) as [v|] eqn:Hk.
  - assert (Hin : In v (get_all m)).
    { apply in_map_iff. exists (k, v). split; [reflexivity|].
      apply list_elem_of_In, elem_of_map_to_list, Hk. }
    rewrite <- (Hm k v Hk). exact (H1 v Hin).
  - rewrite H2; [apply lookup_empty|]. rewrite Hids. intros Hin.
    apply in_map_iff in Hin as ([k' v] & Hkk & Hin). simpl in Hkk. subst k'.
    apply list_elem_of_In, elem_of_map_to_list in Hin. congruence.
Qed.

Lemma get_all_in (m : gmap string A) x : In x (get_all m) <-> exists k, m !! k = Some x.
Proof.
  unfold get_all. rewrite in_map_iff. split.
  - intros ([k v] & <- & Hin). exists k. apply elem_of_map_to_list, list_elem_of_In, Hin.
  - intros (k & Hk). exists (k, x). split; [reflexivity|].
    apply list_elem_of_In, elem_of_map_to_list, Hk.
Qed.

Lemma merge_by_id_nil (incoming : list A) : merge_by_id key [] incoming = incoming.
Proof.
  unfold merge_by_id. simpl. induction incoming as [|x l IH]; simpl; [reflexivity|].
  rewrite IH. reflexivity.
Qed.
End Store.

(** The import dialog's options never select settings. *)
Lemma import_dialog_settings_off (clicks : list OptionKey) (o : DataOptions) :
  o_settings o = false ->
  o_settings (fold_left (fun o k => import_handleToggle k o) clicks o) = false.
Proof.
  revert o. induction clicks as [|k clicks IH]; intros o Ho; simpl; [exact Ho|].
  apply IH. destruct k; exact Ho.
Qed.

(** Claim C6 (amended): for a state whose stores were written by
    [setStoreData], exporting all four collections yields a document with
    all four keys. Importing it through the import dialog, with history,
    templates and bundles selected, into the empty application reports
    success and reproduces the three collection stores exactly, and in
    memory the same records as the original stores. The dialog never
    selects settings, so the settings are not restored: the empty
    application keeps its default settings and an empty settings store. *)
Theorem export_import_roundtrip (isAistudio : bool) (a : App)
    (LH : list HistoryItem) (LT : list PromptTemplate) (LB : list BundledTemplate)
    (clicks : list OptionKey) :
  db_history a = store_of h_id LH -> db_templates a = store_of t_id LT ->
  db_bundles a = store_of b_id LB ->
  o_history (import_dialog_options clicks) = true ->
  o_templates (import_dialog_options clicks) = true ->
  o_bundles (import_dialog_options clicks) = true ->
  exists d, handleExportData all_options a = Some d /\
    doc_settings d <> None /\ doc_history d <> None /\ doc_templates d <> None /\
    doc_bundles d <> None /\
    let r := handleImport (import_dialog_options clicks) (reparse d) (empty_app isAistudio) in
    snd r = ToastSuccess "Data imported successfully!" /\
    db_history (fst r) = db_history a /\ db_templates (fst r) = db_templates a /\
    db_bundles (fst r) = db_bundles a /\
    db_settings (fst r) = ∅ /\ m_settings (fst r) = default_settings isAistudio /\
    (forall x, In x (m_history (fst r)) <-> exists k, db_history a !! k = Some x) /\
    (forall x, In x (m_templates (fst r)) <-> exists k, db_templates a !! k = Some x) /\
    (forall x, In x (m_bundles (fst r)) <-> exists k, db_bundles a !! k = Some x).
Proof.
  intros HH HT HB. assert (Hs := import_dialog_settings_off clicks import_options_initial eq_refl).
  fold (import_dialog_options clicks) in Hs.
  destruct (import_dialog_options clicks) as [os oh ot ob]. cbn in Hs |- *. intros -> -> ->. subst os.
  eexists. split; [reflexivity|].
  split; [discriminate|]. split; [discriminate|]. split; [discriminate|]. split; [discriminate|].
  assert (KH : keyed h_id (db_history a)) by (rewrite HH; apply store_of_keyed).
  assert (KT : keyed t_id (db_templates a)) by (rewrite HT; apply store_of_keyed).
  assert (KB : keyed b_id (db_bundles a)) by (rewrite HB; apply store_of_keyed).
  unfold handleImport, reparse, import_settings, import_history, import_templates, import_bundles.
  cbn [o_settings o_history o_templates o_bundles all_options doc_settings doc_history
       doc_templates doc_bundles].
  cbn -[store_of get_all merge_by_id];
    rewrite ?merge_by_id_nil, ?store_of_get_all by assumption;
    repeat split; try reflexivity; try (apply get_all_in).
Qed.

Lemma export_import_roundtrip_witness :
  db_history export_sample_app = store_of h_id [] /\
  db_templates export_sample_app = store_of t_id [sample_template] /\
  db_bundles export_sample_app = store_of b_id [] /\
  o_history (import_dialog_options []) = true /\
  o_templates (import_dialog_options []) = true /\
  o_bundles (import_dialog_options []) = true /\
  exists d, handleExportData all_options export_sample_app = Some d /\
    doc_settings d <> None /\ doc_history d <> None /\ doc_templates d <> None /\
    doc_bundles d <> None /\
    let r := handleImport (import_dialog_options []) (reparse d) (empty_app false) in
    snd r = ToastSuccess "Data imported successfully!" /\
    db_history (fst r) = db_history export_sample_app /\
    db_templates (fst r) = db_templates export_sample_app /\
    db_bundles (fst r) = db_bundles export_sample_app /\
    db_settings (fst r) = ∅ /\ m_settings (fst r) = default_settings false /\
    (forall x, In x (m_history (fst r)) <-> exists k, db_history export_sample_app !! k = Some x) /\
    (forall x, In x (m_templates (fst r)) <-> exists k, db_templates export_sample_app !! k = Some x) /\
    (forall x, In x (m_bundles (fst r)) <-> exists k, db_bundles export_sample_app !! k = Some x).
Proof.
  split; [reflexivity|]. split; [reflexivity|]. split; [reflexivity|].
  split; [reflexivity|]. split; [reflexivity|]. split; [reflexivity|].
  apply (export_import_roundtrip false export_sample_app [] [sample_template] [] []);
    reflexivity.
Defined.

(** Claim C6 fails as worded: exporting an application with a stored
    settings record puts that record in the document, but importing the
    document through the import dialog leaves the empty application's
    default settings, in memory and in the store. *)
Lemma settings_not_restored_counterexample :
  exists d, handleExportData all_options settings_sample_app = Some d /\
    doc_settings d = Some (SRecord USER_SETTINGS keyed_settings) /\
    let r := handleImport (import_dialog_options []) (reparse d) (empty_app false) in
    snd r = ToastSuccess "Data imported successfully!" /\
    m_settings (fst r) = default_settings false /\
    m_settings (fst r) <> m_settings settings_sample_app /\
    db_settings (fst r) !! USER_SETTINGS = None /\
    db_settings settings_sample_app !! USER_SETTINGS = Some keyed_settings.
Proof.
  eexists. split; [reflexivity|]. split; [reflexivity|].
  vm_compute. split; [reflexivity|]. split; [reflexivity|].
  split; [discriminate|]. split; reflexivity.
Qed.

(* ------------------------------------------------------------------ *)
(** ** Deleting a template *)

Lemma jsmap_get_set_ne {V} (m : list (string * V)) k k' v :
  k <> k' -> JsMap.get (JsMap.set m k' v) k = JsMap.get m k.
Proof.
  intros Hne. induction m as [|[k0 v0] m IH]; simpl.
  - destruct (String.eqb_spec k k'); [contradiction | reflexivity].
  - destruct (String.eqb_spec k' k0) as [->|]; simpl.
    + destruct (String.eqb_spec k k0); [contradiction | reflexivity].
    + destruct (String.eqb k k0); [reflexivity | exact IH].
Qed.

Lemma jsmap_fold_get_absent {V} (es : list (string * V)) (m : list (string * V)) k :
  ~ In k (map fst es) -> JsMap.get (foldl (fun m e => JsMap.set m e.1 e.2) m es) k = JsMap.get m k.
Proof.
  revert m. induction es as [|[k' v] es IH]; intros m Hk; simpl; [reflexivity|].
  rewrite IH by (simpl in Hk; tauto). apply jsmap_get_set_ne. simpl in Hk. intros ->. tauto.
Qed.

Lemma templatesById_absent (ts : list PromptTemplate) k :
  (forall t, In t ts -> t_id t <> k) -> JsMap.get (templatesById ts) k = None.
Proof.
  intros Hts. unfold templatesById, JsMap.of_entries.
  rewrite jsmap_fold_get_absent; [reflexivity|].
  rewrite map_map. simpl. intros Hin. apply in_map_iff in Hin as (t & Ht & Hin). exact (Hts t Hin Ht).
Qed.

Lemma filter_neq_id (ts : list PromptTemplate) tid t :
  In t (List.filter (fun t => negb (String.eqb (t_id t) tid)) ts) <-> In t ts /\ t_id t <> tid.
Proof.
  rewrite filter_In. destruct (String.eqb_spec (t_id t) tid); simpl; intuition congruence.
Qed.

(** Claim C10: deleting a template replaces the templates collection by
    the same list without the records carrying the deleted identifier
    (memory and store) and leaves history, bundles and settings unchanged;
    the bundles keep the dangling identifier, and resolving bundle
    references (the selected-bundle view and [handleSubmit]) or history
    references ([HistoryView]) against the new templates gives the same
    result as if that identifier had been removed from the references. *)
Theorem delete_template_frame (template : PromptTemplate) (a : App) :
  let tid := t_id template in
  let a' := deleteTemplate template a in
  m_templates a' = List.filter (fun t => negb (String.eqb (t_id t) tid)) (m_templates a) /\
  db_templates a' = store_of t_id (m_templates a') /\
  (forall t, In t (m_templates a') <-> In t (m_templates a) /\ t_id t <> tid) /\
  m_history a' = m_history a /\ db_history a' = db_history a /\
  m_bundles a' = m_bundles a /\ db_bundles a' = db_bundles a /\
  m_settings a' = m_settings a /\ db_settings a' = db_settings a /\
  (forall b, templatesForBundle (m_templates a') b =
     templatesForBundle (m_templates a')
       {| b_id := b_id b; name := name b; b_description := b_description b;
          templateIds := List.filter (fun id => negb (String.eqb id tid)) (templateIds b) |}) /\
  (forall sb, templatesFromBundles (m_templates a') sb =
     templatesFromBundles (m_templates a')
       (map (fun b => {| b_id := b_id b; name := name b; b_description := b_description b;
          templateIds := List.filter (fun id => negb (String.eqb id tid)) (templateIds b) |}) sb)) /\
  (forall item ids, referencedTemplates item = Some ids ->
     hydratedTemplates (m_templates a') item =
     keep_defined (map (JsMap.get (templatesById (m_templates a')))
       (List.filter (fun id => negb (String.eqb id tid)) ids))).
Proof.
  intros tid a'.
  set (T' := List.filter (fun t => negb (String.eqb (t_id t) tid)) (m_templates a)).
  assert (HT' : forall t, In t T' -> t_id t <> tid) by (intros t Ht; apply filter_neq_id in Ht; tauto).
  (* [includes] on the pruned list agrees with [includes] on the original for ids other than [tid] *)
  assert (Hinc : forall ids t, In t T' ->
            includes (List.filter (fun id => negb (String.eqb id tid)) ids) (t_id t) = includes ids (t_id t)).
  { intros ids t Ht. pose proof (HT' t Ht) as Hne.
    destruct (includes ids (t_id t)) eqn:E.
    - apply includes_spec. apply includes_spec in E. apply filter_In. split; [exact E|].
      destruct (String.eqb_spec (t_id t) tid); [contradiction | reflexivity].
    - apply includes_false. apply includes_false in E. intros Hin. apply filter_In in Hin. tauto. }
  split; [reflexivity|]. split; [reflexivity|]. split; [apply filter_neq_id|].
  do 6 (split; [reflexivity|]).
  split; [|split].
  - intros b. unfold templatesForBundle. apply filter_ext_in. intros t Ht. symmetry. apply Hinc, Ht.
  - intros sb. unfold templatesFromBundles. apply filter_ext_in. intros t Ht.
    induction sb as [|b sb IH]; simpl; [reflexivity|]. rewrite (Hinc _ t Ht), IH. reflexivity.
  - intros item ids Hids. unfold hydratedTemplates. rewrite Hids.
    change (m_templates a') with T'. clear Hids.
    induction ids as [|id ids IH]; simpl; [reflexivity|].
    destruct (String.eqb_spec id tid) as [->|Hne]; simpl.
    + rewrite templatesById_absent by exact HT'. exact IH.
    + destruct (JsMap.get (templatesById T') id); [f_equal|]; exact IH.
Qed.

Lemma store_of_from_last {A} (key : A -> string) (v : list A) (m0 : gmap string A) k :
  foldl (fun m item => <[key item := item]> m) m0 v !! k =
  match last (List.filter (fun x => String.eqb (key x) k) v) with
  | Some y => Some y
  | None => m0 !! k
  end.
Proof.
  revert m0. induction v as [|x v IH]; intros m0; simpl; [reflexivity|].
  rewrite IH. destruct (String.eqb_spec (key x) k) as [<-|Hne].
  - destruct (last (List.filter (fun y => String.eqb (key y) (key x)) v)) eqn:E.
    + rewrite last_cons, E. reflexivity.
    + rewrite last_cons, E. apply lookup_insert_eq.
  - destruct (last _); [reflexivity|]. apply lookup_insert_ne. exact Hne.
Qed.

(** [setStoreData] stores, under each identifier, the last record of the
    list carrying it, and nothing under identifiers absent from the list. *)
Theorem setStoreData_last_wins {A} (key : A -> string) (v : list A) (k : string) :
  store_of key v !! k = last (List.filter (fun x => String.eqb (key x) k) v).
Proof.
  unfold store_of. rewrite store_of_from_last. destruct (last _); [reflexivity|].
  apply lookup_empty.
Qed.

Lemma get_all_keys_nodup {A} (key : A -> string) (m : gmap string A) :
  keyed key m -> List.NoDup (map key (get_all m)).
Proof.
  intros Hm. unfold get_all. rewrite (map_key_get_all key).
  - apply NoDup_ListNoDup. rewrite map_fst_fmap. apply NoDup_fst_map_to_list.
  - apply Forall_forall. intros [k v] Hin. apply Hm. apply elem_of_map_to_list. exact Hin.
Qed.

Lemma store_of_in {A} (key : A -> string) (v : list A) x :
  List.NoDup (map key v) -> In x (get_all (store_of key v)) <-> In x v.
Proof.
  intros Hnd. rewrite get_all_in. split.
  - intros (k & Hk). rewrite setStoreData_last_wins in Hk.
    pose proof (last_Some_elem_of _ _ Hk) as Hin. apply list_elem_of_In, filter_In in Hin. tauto.
  - intros Hx. exists (key x). exact (proj1 (store_of_from_lookup key v ∅ Hnd) x Hx).
Qed.

(** Loading a collection that the hook wrote with [setStoreData] gives
    back the written list up to order when its identifiers are unique; an
    empty store loads the initial value. *)
Theorem hook_reload_roundtrip {A} (key : A -> string) (initialValue v : list A) :
  List.NoDup (map key v) ->
  (v = [] -> loadArray initialValue (store_of key v) = initialValue) /\
  (v <> [] -> Permutation (loadArray initialValue (store_of key v)) v).
Proof.
  intros Hnd. split.
  - intros ->. unfold loadArray, get_all, store_of. simpl. rewrite map_to_list_empty. reflexivity.
  - intros Hne. destruct v as [|x v']; [contradiction|].
    assert (Hin : forall y, In y (get_all (store_of key (x :: v'))) <-> In y (x :: v'))
      by (intros y; apply store_of_in, Hnd).
    unfold loadArray.
    destruct (get_all (store_of key (x :: v'))) as [|y l] eqn:E.
    + exfalso. apply (proj2 (Hin x)). left. reflexivity.
    + simpl. rewrite <- E. apply NoDup_Permutation.
      * apply NoDup_ListNoDup, (NoDup_map_inv key). apply get_all_keys_nodup, store_of_keyed.
      * apply NoDup_ListNoDup, (NoDup_map_inv key). exact Hnd.
      * intros z. rewrite !list_elem_of_In, E. apply Hin.
Qed.

(** Settings written by the hook are what the next mount loads; an
    empty store loads the defaults, on which the welcome dialog opens;
    once the dialog is closed it opens neither now nor after a reload, and
    the API key settings and the collections are kept. *)
Theorem settings_persist_and_welcome_once (isAistudio : bool) (a : App) (v : Settings) :
  m_settings (reload isAistudio (setSettings v a)) = v /\
  m_settings (reload isAistudio (empty_app isAistudio)) = default_settings isAistudio /\
  welcome_opens false (m_settings (reload isAistudio (empty_app isAistudio))) = true /\
  let a' := handleCloseWelcomeModal a in
  welcome_opens false (m_settings a') = false /\
  welcome_opens false (m_settings (reload isAistudio a')) = false /\
  apiKey (m_settings (reload isAistudio a')) = apiKey (m_settings a) /\
  apiKeySource (m_settings (reload isAistudio a')) = apiKeySource (m_settings a) /\
  m_history a' = m_history a /\ m_templates a' = m_templates a /\ m_bundles a' = m_bundles a /\
  db_history a' = db_history a /\ db_templates a' = db_templates a /\ db_bundles a' = db_bundles a.
Proof.
  split; [unfold reload, loadSettings, setSettings; cbn [db_settings m_settings];
          rewrite lookup_insert_eq; reflexivity|].
  split; [reflexivity|]. split; [destruct isAistudio; reflexivity|].
  unfold handleCloseWelcomeModal, reload, loadSettings, setSettings.
  cbn [db_settings m_settings m_history m_templates m_bundles db_history db_templates db_bundles].
  rewrite lookup_insert_eq. cbn. repeat split.
Qed.

Lemma import_collections_settings o d a :
  m_settings (import_bundles o d (import_templates o d (import_history o d a))) = m_settings a /\
  db_settings (import_bundles o d (import_templates o d (import_history o d a))) = db_settings a.
Proof.
  unfold import_bundles, import_templates, import_history.
  case_import_options o d; split; reflexivity.
Qed.

(** The import dialog never selects settings, whatever the user clicks;
    so an import started from it never changes the settings, in memory or
    in the store, and reports success for every parsed object. *)
Theorem import_dialog_never_imports_settings (clicks : list OptionKey) (p : Parsed) (a : App) :
  let o := import_dialog_options clicks in
  o_settings o = false /\
  m_settings (fst (handleImport o p a)) = m_settings a /\
  db_settings (fst (handleImport o p a)) = db_settings a /\
  (forall d, p = PObject d -> snd (handleImport o p a) = ToastSuccess "Data imported successfully!").
Proof.
  intros o. assert (Ho : o_settings o = false) by (apply import_dialog_settings_off; reflexivity).
  split; [exact Ho|].
  destruct p as [| |d]; [repeat split; discriminate |
    unfold handleImport; destruct (_ || _ || _ || _); repeat split; discriminate |].
  unfold handleImport. unfold import_settings at 1 2 3. rewrite Ho. cbn [fst snd].
  destruct (import_collections_settings o d a) as [H1 H2].
  split; [exact H1|]. split; [exact H2|]. intros d' _. reflexivity.
Qed.

(** Confirming "Clear History" empties the history in memory and in
    the store and leaves the rest; confirming "Clear All Templates &
    Bundles" empties templates and bundles in memory and in their stores
    and leaves history and settings, after which no history item resolves
    any template or bundle reference. *)
Theorem clear_actions_frame (a : App) :
  let h := clearHistoryConfirmed a in
  m_history h = [] /\ db_history h = ∅ /\
  m_settings h = m_settings a /\ db_settings h = db_settings a /\
  m_templates h = m_templates a /\ db_templates h = db_templates a /\
  m_bundles h = m_bundles a /\ db_bundles h = db_bundles a /\
  let t := clearTemplatesConfirmed a in
  m_templates t = [] /\ db_templates t = ∅ /\ m_bundles t = [] /\ db_bundles t = ∅ /\
  m_settings t = m_settings a /\ db_settings t = db_settings a /\
  m_history t = m_history a /\ db_history t = db_history a /\
  (forall item, hydratedTemplates (m_templates t) item = [] /\ hydratedBundles (m_bundles t) item = []).
Proof.
  repeat split.
  - unfold hydratedTemplates. cbn.
    destruct (referencedTemplates item) as [ids|]; [|reflexivity].
    induction ids as [|id ids IH]; [reflexivity | exact IH].
  - unfold hydratedBundles. cbn.
    destruct (referencedBundles item) as [ids|]; [|reflexivity].
    induction ids as [|id ids IH]; [reflexivity | exact IH].
Qed.

Lemma bundlesById_absent (bs : list BundledTemplate) k :
  (forall b, In b bs -> b_id b <> k) -> JsMap.get (bundlesById bs) k = None.
Proof.
  intros Hbs. unfold bundlesById, JsMap.of_entries.
  rewrite jsmap_fold_get_absent; [reflexivity|].
  rewrite map_map. simpl. intros Hin. apply in_map_iff in Hin as (b & Hb & Hin). exact (Hbs b Hin Hb).
Qed.

(** Deleting a bundle removes from the bundles (memory and store)
    exactly the records with its identifier and leaves templates, history
    and settings unchanged; history items keep the dangling identifier and
    [HistoryView] resolves them as if it had been removed. *)
Theorem delete_bundle_frame (bundle : BundledTemplate) (a : App) :
  let bid := b_id bundle in
  let a' := deleteBundle bundle a in
  (forall b, In b (m_bundles a') <-> In b (m_bundles a) /\ b_id b <> bid) /\
  db_bundles a' = store_of b_id (m_bundles a') /\
  m_templates a' = m_templates a /\ db_templates a' = db_templates a /\
  m_history a' = m_history a /\ db_history a' = db_history a /\
  m_settings a' = m_settings a /\ db_settings a' = db_settings a /\
  (forall item ids, referencedBundles item = Some ids ->
     hydratedBundles (m_bundles a') item =
     keep_defined (map (JsMap.get (bundlesById (m_bundles a')))
       (List.filter (fun id => negb (String.eqb id bid)) ids))).
Proof.
  intros bid a'.
  set (B' := List.filter (fun b => negb (String.eqb (b_id b) bid)) (m_bundles a)).
  assert (HB : forall b, In b B' <-> In b (m_bundles a) /\ b_id b <> bid).
  { intros b. unfold B'. rewrite filter_In.
    destruct (String.eqb_spec (b_id b) bid); simpl; intuition congruence. }
  split; [exact HB|]. do 7 (split; [reflexivity|]).
  intros item ids Hids. unfold hydratedBundles. rewrite Hids. change (m_bundles a') with B'.
  clear Hids. induction ids as [|id ids IH]; simpl; [reflexivity|].
  destruct (String.eqb_spec id bid) as [->|Hne]; simpl.
  - rewrite bundlesById_absent; [exact IH|]. intros b Hb. apply HB in Hb. tauto.
  - destruct (JsMap.get (bundlesById B') id); [f_equal|]; exact IH.
Qed.

(** Confirming the deletion of a history item removes exactly the
    records with its identifier (keeping the order of the others) from the
    history in memory and in the store, and changes nothing else; without
    a pending item nothing changes. *)
Theorem delete_history_item_frame (pending : option HistoryItem) (a : App) :
  (pending = None -> confirmDeleteItemAction pending a = a) /\
  (forall it, pending = Some it ->
     let a' := confirmDeleteItemAction pending a in
     m_history a' = List.filter (fun item => negb (String.eqb (h_id item) (h_id it))) (m_history a) /\
     (forall item, In item (m_history a') <-> In item (m_history a) /\ h_id item <> h_id it) /\
     db_history a' = store_of h_id (m_history a') /\
     m_templates a' = m_templates a /\ db_templates a' = db_templates a /\
     m_bundles a' = m_bundles a /\ db_bundles a' = db_bundles a /\
     m_settings a' = m_settings a /\ db_settings a' = db_settings a).
Proof.
  split; [intros ->; reflexivity|].
  intros it -> a'. split; [reflexivity|]. split.
  - intros item. cbn. rewrite filter_In.
    destruct (String.eqb_spec (h_id item) (h_id it)); simpl; intuition congruence.
  - repeat split.
Qed.

Lemma jsmap_get_set_eq {V} (m : list (string * V)) k v : JsMap.get (JsMap.set m k v) k = Some v.
Proof.
  induction m as [|[k' v'] m IH]; simpl.
  - rewrite String.eqb_refl. reflexivity.
  - destruct (String.eqb_spec k k') as [->|Hne]; simpl.
    + rewrite String.eqb_refl. reflexivity.
    + apply String.eqb_neq in Hne. rewrite Hne. exact IH.
Qed.

Lemma foldl_ext {A B} (f g : A -> B -> A) (l : list B) (a : A) :
  (forall c x, f c x = g c x) -> foldl f a l = foldl g a l.
Proof. revert a. induction l as [|x l IH]; intros a H; simpl; [reflexivity|]. rewrite H. apply IH, H. Qed.


Lemma count_set_spec counts k x :
  count_of (count_set counts k) x = count_of counts x + (if String.eqb x k then 1 else 0) /\
  (counts_positive counts -> counts_positive (count_set counts k)).
Proof.
  unfold count_set, count_of. split.
  - destruct (String.eqb_spec x k) as [->|Hne].
    + rewrite jsmap_get_set_eq. reflexivity.
    + rewrite jsmap_get_set_ne by exact Hne. lia.
  - intros Hp y n Hy. destruct (String.eqb_spec y k) as [->|Hne].
    + rewrite jsmap_get_set_eq in Hy. injection Hy as <-. lia.
    + rewrite jsmap_get_set_ne in Hy by exact Hne. exact (Hp y n Hy).
Qed.

Lemma count_fold_spec counts ids x :
  count_of (foldl count_set counts ids) x = count_of counts x + occurrences ids x /\
  (counts_positive counts -> counts_positive (foldl count_set counts ids)).
Proof.
  revert counts. induction ids as [|k ids IH]; intros counts; simpl.
  - unfold occurrences. simpl. split; [lia | tauto].
  - destruct (count_set_spec counts k x) as [H1 H2]. destruct (IH (count_set counts k)) as [IH1 IH2].
    split; [|tauto]. rewrite IH1, H1. unfold occurrences. simpl.
    rewrite String.eqb_sym. destruct (String.eqb k x); simpl; lia.
Qed.

Lemma counts_positive_get counts x :
  counts_positive counts ->
  JsMap.get counts x = match count_of counts x with 0 => None | n => Some n end.
Proof.
  unfold count_of. intros Hp. destruct (JsMap.get counts x) as [n|] eqn:E; [|reflexivity].
  pose proof (Hp x n E). destruct n; [lia | reflexivity].
Qed.

Lemma counts_fold_items {B} (ids_of : B -> list string) (items : list B) counts x :
  counts_positive counts ->
  count_of (foldl (fun c item => foldl count_set c (ids_of item)) counts items) x =
    count_of counts x + list_sum (map (fun item => occurrences (ids_of item) x) items) /\
  counts_positive (foldl (fun c item => foldl count_set c (ids_of item)) counts items).
Proof.
  revert counts. induction items as [|item items IH]; intros counts Hp; simpl; [split; [lia | exact Hp]|].
  destruct (count_fold_spec counts (ids_of item) x) as [H1 H2].
  destruct (IH (foldl count_set counts (ids_of item)) (H2 Hp)) as [IH1 IH2].
  split; [|exact IH2]. rewrite IH1, H1. lia.
Qed.

(** The usage counter of a template identifier is the number of times
    it occurs among the history items' template references (no entry
    when it occurs nowhere), and the counter of a tag is the number of
    times it occurs among the templates' tags. *)
Theorem usage_counts_spec (history : list HistoryItem) (templates : list PromptTemplate) (x : string) :
  JsMap.get (usageCounts history) x =
    match list_sum (map (fun item => occurrences (default [] (referencedTemplates item)) x) history) with
    | 0 => None
    | n => Some n
    end /\
  JsMap.get (tagUsageCounts templates) x =
    match list_sum (map (fun t => occurrences (tags t) x) templates) with
    | 0 => None
    | n => Some n
    end.
Proof.
  assert (H0 : counts_positive []) by (intros y n H; discriminate H).
  split.
  - assert (Heq : usageCounts history =
                  foldl (fun c item => foldl count_set c (default [] (referencedTemplates item))) [] history).
    { unfold usageCounts. apply foldl_ext. intros c item. destruct (referencedTemplates item); reflexivity. }
    rewrite Heq.
    destruct (counts_fold_items (fun item => default [] (referencedTemplates item)) history [] x H0) as [H1 H2].
    rewrite (counts_positive_get _ _ H2), H1. reflexivity.
  - destruct (counts_fold_items tags templates [] x H0) as [H1 H2].
    unfold tagUsageCounts. rewrite (counts_positive_get _ _ H2), H1. reflexivity.
Qed.

Lemma filter_all_true {A} (f : A -> bool) (l : list A) :
  (forall x, In x l -> f x = true) -> List.filter f l = l.
Proof.
  induction l as [|x l IH]; intros H; simpl; [reflexivity|].
  rewrite (H x (or_introl eq_refl)), IH; [reflexivity|]. intros y Hy. apply H. right. exact Hy.
Qed.

Lemma toggle_by_key_spec {A} (key : A -> string) (prev : list A) (x : A) :
  let r := if existsb (fun y => String.eqb (key y) (key x)) prev
           then List.filter (fun y => negb (String.eqb (key y) (key x))) prev
           else prev ++ [x] in
  (forall k, In k (map key r) <->
     (In k (map key prev) /\ k <> key x) \/ (k = key x /\ ~ In (key x) (map key prev))) /\
  (forall y, In y r -> In y prev \/ y = x) /\
  (~ In (key x) (map key prev) ->
     r = prev ++ [x] /\
     (if existsb (fun y => String.eqb (key y) (key x)) r
      then List.filter (fun y => negb (String.eqb (key y) (key x))) r
      else r ++ [x]) = prev).
Proof.
  intros r.
  assert (Hex : existsb (fun y => String.eqb (key y) (key x)) prev = true <-> In (key x) (map key prev)).
  { rewrite existsb_exists, in_map_iff. split.
    - intros (y & Hy & E). apply String.eqb_eq in E. exists y. auto.
    - intros (y & E & Hy). exists y. split; [exact Hy|]. apply String.eqb_eq. exact E. }
  assert (Hfk : forall l k, In k (map key (List.filter (fun y => negb (String.eqb (key y) (key x))) l)) <->
                  In k (map key l) /\ k <> key x).
  { intros l k. rewrite !in_map_iff. split.
    - intros (y & <- & Hy). apply filter_In in Hy as [Hy E].
      destruct (String.eqb_spec (key y) (key x)); [discriminate|]. eauto.
    - intros ((y & <- & Hy) & Hne). exists y. split; [reflexivity|]. apply filter_In. split; [exact Hy|].
      destruct (String.eqb_spec (key y) (key x)); [contradiction | reflexivity]. }
  unfold r. generalize (proj1 Hex) (proj2 Hex). clear Hex.
  destruct (existsb _ prev) eqn:E; intros Hex1 Hex2.
  - pose proof (Hex1 eq_refl) as Hin. split; [|split].
    + intros k. rewrite Hfk. tauto.
    + intros y Hy. apply filter_In in Hy. tauto.
    + intros Hn. contradiction.
  - assert (Hn : ~ In (key x) (map key prev)) by (intros H; apply Hex2 in H; congruence).
    split; [|split].
    + intros k. rewrite map_app, in_app_iff. simpl.
      destruct (String.eqb_spec k (key x)) as [->|Hne]; [tauto|]. intuition congruence.
    + intros y Hy. apply in_app_iff in Hy as [Hy|[<-|[]]]; auto.
    + intros _. split; [reflexivity|].
      assert (E2 : existsb (fun y => String.eqb (key y) (key x)) (prev ++ [x]) = true).
      { apply existsb_exists. exists x. rewrite in_app_iff. simpl. split; [auto|]. apply String.eqb_refl. }
      rewrite E2, List.filter_app. simpl. rewrite String.eqb_refl. simpl. rewrite app_nil_r.
      apply filter_all_true. intros y Hy. apply negb_true_iff. apply String.eqb_neq.
      intros Heq. apply Hn. rewrite <- Heq. apply in_map, Hy.
Qed.

Lemma includes_sym (xs : list string) (x : string) :
  includes xs x = existsb (fun y => String.eqb y x) xs.
Proof.
  unfold includes. induction xs as [|y xs IH]; simpl; [reflexivity|].
  rewrite String.eqb_sym, IH. reflexivity.
Qed.

Lemma toggleTag_as_key (prev : list string) (tag : string) :
  toggleTag prev tag =
  if existsb (fun y => String.eqb y tag) prev
  then List.filter (fun y => negb (String.eqb y tag)) prev
  else prev ++ [tag].
Proof. unfold toggleTag. rewrite includes_sym. reflexivity. Qed.

(** Each toggle of the quick-add panel flips the selection of exactly
    the toggled tag, bundle or template (by identifier) and selects
    nothing else; toggling something unselected twice restores the
    selection. *)
Theorem quickadd_toggles_flip (prev : list string) (tag : string)
    (bs : list BundledTemplate) (b : BundledTemplate)
    (ts : list PromptTemplate) (t : PromptTemplate) :
  (forall x, In x (toggleTag prev tag) <-> (In x prev /\ x <> tag) \/ (x = tag /\ ~ In tag prev)) /\
  (~ In tag prev -> toggleTag (toggleTag prev tag) tag = prev) /\
  (forall id, In id (map b_id (toggleBundle bs b)) <->
     (In id (map b_id bs) /\ id <> b_id b) \/ (id = b_id b /\ ~ In (b_id b) (map b_id bs))) /\
  (forall y, In y (toggleBundle bs b) -> In y bs \/ y = b) /\
  (~ In (b_id b) (map b_id bs) -> toggleBundle (toggleBundle bs b) b = bs) /\
  (forall id, In id (map t_id (toggleTemplate ts t)) <->
     (In id (map t_id ts) /\ id <> t_id t) \/ (id = t_id t /\ ~ In (t_id t) (map t_id ts))) /\
  (forall y, In y (toggleTemplate ts t) -> In y ts \/ y = t) /\
  (~ In (t_id t) (map t_id ts) -> toggleTemplate (toggleTemplate ts t) t = ts).
Proof.
  pose proof (toggle_by_key_spec (fun s : string => s) prev tag) as HT.
  cbv zeta beta in HT. rewrite !map_id in HT. destruct HT as (T1 & _ & T3).
  destruct (toggle_by_key_spec b_id bs b) as (B1 & B2 & B3).
  destruct (toggle_by_key_spec t_id ts t) as (P1 & P2 & P3).
  split; [intros x; rewrite toggleTag_as_key; apply T1|].
  split; [intros Hn; destruct (T3 Hn) as [E1 E2]; rewrite !toggleTag_as_key; exact E2|].
  split; [exact B1|]. split; [exact B2|].
  split; [intros Hn; destruct (B3 Hn) as [E1 E2]; unfold toggleBundle; exact E2|].
  split; [exact P1|]. split; [exact P2|].
  intros Hn; destruct (P3 Hn) as [E1 E2]; unfold toggleTemplate; exact E2.
Qed.

Lemma nodup_snoc (s : list string) (x : string) :
  List.NoDup s -> ~ In x s -> List.NoDup (s ++ [x]).
Proof.
  induction s as [|y s IH]; simpl; intros Hnd Hx.
  - constructor; [intros []|constructor].
  - inversion Hnd as [|? ? Hy Hnd']; subst. constructor.
    + rewrite in_app_iff. simpl. intros [H|[H|[]]]; [exact (Hy H)|].
      apply Hx. left. symmetry. exact H.
    + apply IH; [exact Hnd'|]. intros H. apply Hx. right. exact H.
Qed.

Lemma set_toggle_spec (s : list string) (x : string) :
  List.NoDup s ->
  List.NoDup (set_toggle s x) /\
  (forall y, In y (set_toggle s x) <-> (In y s /\ y <> x) \/ (y = x /\ ~ In x s)).
Proof.
  intros Hnd.
  pose proof (toggle_by_key_spec (fun s : string => s) s x) as HT.
  cbv zeta beta in HT. rewrite !map_id in HT. destruct HT as (T1 & _ & T3).
  assert (E : set_toggle s x =
    if existsb (fun y => String.eqb y x) s
    then List.filter (fun y => negb (String.eqb y x)) s else s ++ [x]).
  { unfold set_toggle. rewrite includes_sym. reflexivity. }
  rewrite E. split; [|exact T1].
  destruct (in_dec String.string_dec x s) as [Hin|Hin].
  - destruct (existsb _ s) eqn:Ex; [apply List.NoDup_filter, Hnd|].
    exfalso. assert (existsb (fun y => String.eqb y x) s = true) as Ht.
    { apply existsb_exists. exists x. split; [exact Hin|apply String.eqb_refl]. }
    congruence.
  - destruct (T3 Hin) as [E1 _]. rewrite E1. apply nodup_snoc; assumption.
Qed.

Lemma set_of_spec (arr : list string) :
  List.NoDup (set_of arr) /\ (forall y, In y (set_of arr) <-> In y arr).
Proof.
  unfold set_of. split.
  - apply NoDup_ListNoDup, (dedup_after_nodup [] arr), NoDup_nil_2.
  - intros y. pose proof (dedup_after_in [] arr y) as H. simpl in H. rewrite H. tauto.
Qed.

(** Toggling a tag in the tag filter dropdown yields a selection
    without duplicates that holds every previously selected tag except the
    toggled one, plus the toggled tag exactly when it was not selected. *)
Theorem multiTag_toggle_flip (selectedTags : list string) (tag : string) :
  List.NoDup (multiTag_handleToggleTag selectedTags tag) /\
  (forall y, In y (multiTag_handleToggleTag selectedTags tag) <->
     (In y selectedTags /\ y <> tag) \/ (y = tag /\ ~ In tag selectedTags)).
Proof.
  destruct (set_of_spec selectedTags) as [Hnd Hin].
  destruct (set_toggle_spec (set_of selectedTags) tag Hnd) as [H1 H2].
  unfold multiTag_handleToggleTag. split; [exact H1|].
  intros y. rewrite H2, !Hin. tauto.
Qed.

Lemma fold_set_toggle_spec (clicks s : list string) :
  List.NoDup s ->
  List.NoDup (fold_left set_toggle clicks s) /\
  (forall id, In id (fold_left set_toggle clicks s) <->
     if Nat.even (occurrences clicks id) then In id s else ~ In id s).
Proof.
  revert s. induction clicks as [|c cs IH]; intros s Hnd; simpl.
  - split; [exact Hnd|]. intros id. unfold occurrences. simpl. tauto.
  - destruct (set_toggle_spec s c Hnd) as [Hnd' Hin'].
    destruct (IH _ Hnd') as [H1 H2]. split; [exact H1|].
    intros id. rewrite H2. unfold occurrences. simpl.
    destruct (String.eqb_spec c id) as [<-|Hne].
    + cbn [length]. rewrite Nat.even_succ, <- Nat.negb_even.
      destruct (Nat.even _); simpl; rewrite Hin';
        destruct (in_dec String.string_dec c s); tauto.
    + assert (E : In id (set_toggle s c) <-> In id s).
      { rewrite Hin'. split.
        - intros [[H _]|[H _]]; [exact H|congruence].
        - intros H. left. split; [exact H|congruence]. }
      destruct (Nat.even _); rewrite E; reflexivity.
Qed.

(** In the bundle editor the selection never holds a template id twice,
    and a template id is selected exactly when it was in the edited
    bundle and clicked an even number of times, or was not and was
    clicked an odd number of times. *)
Theorem bundle_editor_selection_parity (existingBundle : option BundledTemplate)
    (clicks : list string) :
  let init := match existingBundle with Some b => templateIds b | None => [] end in
  List.NoDup (bundle_editor_selection existingBundle clicks) /\
  (forall id, In id (bundle_editor_selection existingBundle clicks) <->
     if Nat.even (occurrences clicks id) then In id init else ~ In id init).
Proof.
  intros init.
  assert (Hi : List.NoDup (bundle_editor_initial existingBundle) /\
               forall y, In y (bundle_editor_initial existingBundle) <-> In y init).
  { unfold init, bundle_editor_initial. destruct existingBundle as [b|].
    - apply set_of_spec.
    - split; [constructor|tauto]. }
  destruct Hi as [Hnd Hin].
  destruct (fold_set_toggle_spec clicks _ Hnd) as [H1 H2].
  unfold bundle_editor_selection. split; [exact H1|].
  intros id. rewrite H2. destruct (Nat.even _); rewrite Hin; reflexivity.
Qed.

Lemma map_replace_keys {A} (key : A -> string) (l : list A) (k : string) (n : A) :
  key n = k ->
  map key (map (fun x => if String.eqb (key x) k then n else x) l) = map key l.
Proof.
  intros Hn. induction l as [|x l IH]; simpl; [reflexivity|].
  rewrite IH. destruct (String.eqb_spec (key x) k) as [E|E]; [rewrite Hn, E|]; reflexivity.
Qed.

Lemma map_replace_absent {A} (key : A -> string) (l : list A) (k : string) (n : A) :
  ~ In k (map key l) ->
  map (fun x => if String.eqb (key x) k then n else x) l = l.
Proof.
  induction l as [|x l IH]; simpl; intros Hk; [reflexivity|].
  destruct (String.eqb_spec (key x) k) as [E|E].
  - exfalso. apply Hk. left. exact E.
  - f_equal. apply IH. intros H. apply Hk. right. exact H.
Qed.

Lemma is_empty_string_spec (s : string) : is_empty_string s = true <-> s = EmptyString.
Proof. unfold is_empty_string. apply String.eqb_eq. Qed.

(** Saving the bundle editor does nothing when the name is empty and
    only ever changes the bundles; a new bundle gets the fresh id and the
    clicked selection and goes first; an edit keeps the list of bundle
    ids, replacing the bundle with the edited id; editing a bundle whose
    id is empty saves it under the fresh id, which no bundle has, so the
    edit is lost. *)
Theorem bundle_editor_session_outcome (editingBundle : option BundledTemplate)
    (clicks : list string) (bname bdescription uuid : string) (a : App) :
  let a' := bundle_editor_session editingBundle clicks bname bdescription uuid a in
  let sel := bundle_editor_selection editingBundle clicks in
  (bname = EmptyString -> a' = a) /\
  (m_settings a' = m_settings a /\ m_history a' = m_history a /\
   m_templates a' = m_templates a /\ db_settings a' = db_settings a /\
   db_history a' = db_history a /\ db_templates a' = db_templates a) /\
  (bname <> EmptyString -> db_bundles a' = store_of b_id (m_bundles a')) /\
  (bname <> EmptyString -> editingBundle = None ->
     m_bundles a' = {| b_id := uuid; name := bname; b_description := bdescription;
                       templateIds := sel |} :: m_bundles a) /\
  (forall b, editingBundle = Some b -> map b_id (m_bundles a') = map b_id (m_bundles a)) /\
  (forall b, editingBundle = Some b -> b_id b <> EmptyString -> bname <> EmptyString ->
     m_bundles a' = map (fun x => if String.eqb (b_id x) (b_id b)
                                  then {| b_id := b_id b; name := bname;
                                          b_description := bdescription; templateIds := sel |}
                                  else x) (m_bundles a)) /\
  (forall b, editingBundle = Some b -> b_id b = EmptyString ->
     ~ In uuid (map b_id (m_bundles a)) -> m_bundles a' = m_bundles a).
Proof.
  intros a' sel. unfold a', sel, bundle_editor_session, bundle_editor_save.
  destruct (is_empty_string bname) eqn:En.
  - apply is_empty_string_spec in En.
    repeat split; try (intros; congruence); intros; reflexivity.
  - assert (Hn : bname <> EmptyString) by (intros E; apply is_empty_string_spec in E; congruence).
    destruct editingBundle as [b|]; unfold handleSaveBundle, setBundles; simpl.
    + destruct (is_empty_string (b_id b)) eqn:Eb.
      * repeat split; try (intros; congruence).
        -- intros b' [= <-]. apply map_replace_keys. reflexivity.
        -- intros b' [= <-] Hb. apply (proj1 (is_empty_string_spec _)) in Eb. congruence.
        -- intros b' [= <-] _ Hu. apply map_replace_absent. exact Hu.
      * repeat split; try (intros; congruence).
        -- intros b' [= <-]. apply map_replace_keys. reflexivity.
        -- intros b' [= <-] _ _. reflexivity.
        -- intros b' [= <-] Hb. apply (proj2 (is_empty_string_spec _)) in Hb. congruence.
    + repeat split; intros; congruence.
Qed.

Lemma split_comma_pieces (s : string) :
  forall x, In x (split_comma s) -> no_comma x = true.
Proof.
  induction s as [|c s IH]; simpl; intros x Hx.
  - destruct Hx as [<-|[]]. reflexivity.
  - destruct (Ascii.eqb c ",") eqn:Ec.
    + destruct Hx as [<-|Hx]; [reflexivity|exact (IH x Hx)].
    + destruct (split_comma s) as [|y r] eqn:Er.
      * destruct Hx as [<-|[]]. simpl. rewrite Ec. reflexivity.
      * destruct Hx as [<-|Hx].
        -- simpl. rewrite Ec. apply IH. left. reflexivity.
        -- apply IH. right. exact Hx.
Qed.

Lemma string_length_ind (P : string -> Prop) :
  (forall s, (forall t, String.length t < String.length s -> P t) -> P s) -> forall s, P s.
Proof.
  intros H s. remember (String.length s) as n eqn:En. revert s En.
  induction n as [n IH] using (well_founded_induction lt_wf). intros s ->.
  apply H. intros t Ht. exact (IH _ Ht t eq_refl).
Qed.

Lemma string_app_cons (c : ascii) (s t : string) : String c s +:+ t = String c (s +:+ t).
Proof. reflexivity. Qed.

Lemma string_app_nil_l (t : string) : EmptyString +:+ t = t.
Proof. reflexivity. Qed.

Lemma trim_start_cons (a : ascii) (r : string) :
  trim_start (String a r) =
  if ws1 a then trim_start r else
  match r with
  | String b r2 =>
      if ws2 a b then trim_start r2 else
      match r2 with
      | String c r3 => if ws3 a b c then trim_start r3 else String a r
      | EmptyString => String a r
      end
  | EmptyString => String a r
  end.
Proof. reflexivity. Qed.

Lemma trim_start_eq (s : string) :
  trim_start s = match ws_step s with Some r => trim_start r | None => s end.
Proof.
  destruct s as [|a r]; [reflexivity|]. rewrite trim_start_cons. unfold ws_step.
  destruct (ws1 a); [reflexivity|]. destruct r as [|b r2]; [reflexivity|].
  destruct (ws2 a b); [reflexivity|]. destruct r2 as [|c r3]; [reflexivity|].
  destruct (ws3 a b c); reflexivity.
Qed.

Lemma ws_step_shorter (s r : string) :
  ws_step s = Some r -> exists w, s = w +:+ r /\ String.length r < String.length s.
Proof.
  destruct s as [|a [|b [|c s]]]; cbn [ws_step]; [discriminate| | |];
    repeat (destruct (ws1 _) || destruct (ws2 _ _) || destruct (ws3 _ _ _)); intros H;
    try discriminate; injection H as <-;
    first [ exists (String a EmptyString); split; [reflexivity|simpl; lia]
          | exists (String a (String b EmptyString)); split; [reflexivity|simpl; lia]
          | exists (String a (String b (String c EmptyString))); split; [reflexivity|simpl; lia] ].
Qed.

Lemma ws_step_app (s t r : string) : ws_step s = Some r -> ws_step (s +:+ t) = Some (r +:+ t).
Proof.
  destruct s as [|a [|b [|c s]]]; rewrite ?string_app_cons, ?string_app_nil_l; cbn [ws_step]; [discriminate| | |];
    repeat (destruct (ws1 _) || destruct (ws2 _ _) || destruct (ws3 _ _ _)); intros H;
    try discriminate; injection H as <-; reflexivity.
Qed.

(** A prefix of a string that does not start with white space does not
    either. *)
Lemma ws_step_prefix (p q : string) : ws_step (p +:+ q) = None -> ws_step p = None.
Proof.
  destruct p as [|a [|b [|c p]]]; rewrite ?string_app_cons, ?string_app_nil_l; cbn [ws_step]; [reflexivity| | |];
    destruct q as [|d [|e q]]; cbn;
    repeat (destruct (ws1 _) || destruct (ws2 _ _) || destruct (ws3 _ _ _)); congruence.
Qed.

Lemma trim_start_suffix (s : string) : exists w, s = w +:+ trim_start s.
Proof.
  induction s as [s IH] using string_length_ind. rewrite trim_start_eq.
  destruct (ws_step s) as [r|] eqn:E.
  - destruct (ws_step_shorter s r E) as (w & -> & Hl).
    destruct (IH r Hl) as (w' & Hw'). exists (w +:+ w').
    rewrite string_app_assoc, <- Hw'. reflexivity.
  - exists EmptyString. reflexivity.
Qed.

Lemma trim_start_none (s : string) : ws_step (trim_start s) = None.
Proof.
  induction s as [s IH] using string_length_ind. rewrite trim_start_eq.
  destruct (ws_step s) as [r|] eqn:E; [|exact E].
  destruct (ws_step_shorter s r E) as (w & _ & Hl). apply IH, Hl.
Qed.

Lemma trim_start_fix (s : string) : ws_step s = None -> trim_start s = s.
Proof. intros E. rewrite trim_start_eq, E. reflexivity. Qed.

Lemma trim_start_idem (s : string) : trim_start (trim_start s) = trim_start s.
Proof. apply trim_start_fix, trim_start_none. Qed.

(** White space followed by anything: the white space is dropped. *)
Lemma trim_start_blank_app (u v : string) :
  trim_start u = EmptyString -> trim_start (u +:+ v) = trim_start v.
Proof.
  revert v. induction u as [u IH] using string_length_ind. intros v Hu.
  rewrite trim_start_eq in Hu. destruct (ws_step u) as [r|] eqn:E.
  - rewrite trim_start_eq, (ws_step_app u v r E). destruct (ws_step_shorter u r E) as (w & _ & Hl).
    apply IH; assumption.
  - subst u. reflexivity.
Qed.

Lemma trim_end_split (s : string) : exists w, s = trim_end s +:+ w /\ is_blank w = true.
Proof.
  induction s as [|c s IH]; [exists EmptyString; split; reflexivity|].
  cbn [trim_end]. destruct (is_blank (String c s)) eqn:Eb.
  - exists (String c s). split; [reflexivity|exact Eb].
  - destruct IH as (w & Hw & Hb). exists w. split; [|exact Hb].
    rewrite string_app_cons, <- Hw. reflexivity.
Qed.

Lemma trim_end_idem (s : string) : trim_end (trim_end s) = trim_end s.
Proof.
  induction s as [|c s IH]; [reflexivity|].
  cbn [trim_end]. destruct (is_blank (String c s)) eqn:Eb; [reflexivity|].
  cbn [trim_end]. destruct (is_blank (String c (trim_end s))) eqn:Eb'.
  - exfalso. destruct (trim_end_split s) as (w & Hw & Hb).
    unfold is_blank, is_empty_string in Eb, Eb', Hb.
    apply String.eqb_eq in Eb', Hb.
    assert (H : trim_start (String c s) = EmptyString).
    { rewrite Hw. change (String c (trim_end s +:+ w)) with (String c (trim_end s) +:+ w).
      rewrite (trim_start_blank_app _ _ Eb'). exact Hb. }
    rewrite H in Eb. discriminate.
  - rewrite IH. reflexivity.
Qed.

Lemma trim_start_trim_end (s : string) :
  trim_start s = s -> trim_start (trim_end s) = trim_end s.
Proof.
  intros H. apply trim_start_fix.
  destruct (trim_end_split s) as (w & Hw & _).
  apply (ws_step_prefix _ w). rewrite <- Hw, <- H. apply trim_start_none.
Qed.

Lemma trim_idem (s : string) : trim (trim s) = trim s.
Proof.
  unfold trim. rewrite trim_start_trim_end by apply trim_start_idem.
  apply trim_end_idem.
Qed.

(** [trim] removes a no-break space as it removes a space. *)
Lemma trim_nbsp : trim (nbsp +:+ "a" +:+ nbsp) = "a" /\ trim (String " " ("a" +:+ nbsp)) = "a".
Proof. vm_compute. split; reflexivity. Qed.

Lemma no_comma_app (s t : string) : no_comma (s +:+ t) = no_comma s && no_comma t.
Proof. induction s as [|c s IH]; [reflexivity|]. rewrite string_app_cons. cbn [no_comma]. rewrite IH, andb_assoc. reflexivity. Qed.

Lemma no_comma_trim_start (s : string) : no_comma s = true -> no_comma (trim_start s) = true.
Proof.
  destruct (trim_start_suffix s) as (w & Hw). rewrite Hw at 1.
  rewrite no_comma_app. intros H. apply andb_prop in H. apply H.
Qed.

Lemma no_comma_trim_end (s : string) : no_comma s = true -> no_comma (trim_end s) = true.
Proof.
  destruct (trim_end_split s) as (w & Hw & _). rewrite Hw at 1.
  rewrite no_comma_app. intros H. apply andb_prop in H. apply H.
Qed.

Lemma split_comma_single (t : string) : no_comma t = true -> split_comma t = [t].
Proof.
  induction t as [|c t IH]; simpl; [reflexivity|].
  intros H. apply andb_prop in H. destruct H as [Hc Ht].
  apply negb_true_iff in Hc. rewrite Hc, (IH Ht). reflexivity.
Qed.

Lemma split_comma_app (t s : string) :
  no_comma t = true -> split_comma (t +:+ String "," s) = t :: split_comma s.
Proof.
  induction t as [|c t IH]; simpl; [reflexivity|].
  intros H. apply andb_prop in H. destruct H as [Hc Ht].
  apply negb_true_iff in Hc. rewrite Hc, (IH Ht). reflexivity.
Qed.

Lemma split_comma_join (t : string) (rest : list string) :
  no_comma t = true -> Forall (fun x => no_comma x = true) rest ->
  split_comma (join_list (t :: rest)) = t :: map (fun x => String " " x) rest.
Proof.
  unfold join_list. revert t. induction rest as [|u rest IH]; intros t Ht Hr.
  - simpl. apply split_comma_single, Ht.
  - inversion Hr as [|? ? Hu Hr']; subst.
    change (String.concat ", " (t :: u :: rest))
      with (t +:+ String "," (String " " (String.concat ", " (u :: rest)))).
    rewrite split_comma_app by exact Ht. f_equal.
    assert (Hsp : forall x, split_comma (String " " x) =
              match split_comma x with [] => [String " " EmptyString] | y :: r => String " " y :: r end)
      by reflexivity.
    rewrite Hsp, (IH u Hu Hr'). reflexivity.
Qed.

(** The tags and models inputs of the template form parse to entries
    that are non-empty, already trimmed and free of commas; and parsing
    the text the form shows for such a list, its entries joined by
    [", "], gives back exactly that list. *)
Theorem parse_list_invariant_roundtrip (value : string) (tags : list string) :
  (forall t, In t (parse_list value) ->
     t <> EmptyString /\ trim t = t /\ no_comma t = true) /\
  ((forall t, In t tags -> t <> EmptyString /\ trim t = t /\ no_comma t = true) ->
     parse_list (join_list tags) = tags).
Proof.
  split.
  - intros t Ht. unfold parse_list in Ht. apply filter_In in Ht.
    destruct Ht as [Hin Hne]. apply in_map_iff in Hin. destruct Hin as [u [<- Hu]].
    split; [intros E; rewrite E in Hne; discriminate|].
    split; [apply trim_idem|].
    unfold trim. apply no_comma_trim_end, no_comma_trim_start.
    exact (split_comma_pieces value u Hu).
  - intros Hall. destruct tags as [|t rest]; [reflexivity|].
    assert (Hr : Forall (fun x => no_comma x = true) rest).
    { apply List.Forall_forall. intros x Hx. apply Hall. right. exact Hx. }
    destruct (Hall t (or_introl eq_refl)) as (Hne & Htr & Hnc).
    unfold parse_list. rewrite (split_comma_join t rest Hnc Hr). simpl.
    rewrite Htr. unfold is_empty_string.
    destruct (String.eqb_spec t EmptyString) as [E|_]; [contradiction|]. simpl. f_equal.
    assert (Hrest : forall x, In x rest -> x <> EmptyString /\ trim x = x).
    { intros x Hx. destruct (Hall x (or_intror Hx)) as (? & ? & _). split; assumption. }
    clear Hall Hr. induction rest as [|x rest IH]; simpl; [reflexivity|].
    destruct (Hrest x (or_introl eq_refl)) as [Hx Hxt].
    change (trim (String " " x)) with (trim x). rewrite Hxt.
    destruct (String.eqb_spec x EmptyString) as [E|_]; [contradiction|]. simpl. f_equal.
    apply IH. intros y Hy. apply Hrest. right. exact Hy.
Qed.

Lemma form_edits_keep_id (edits : list FormEdit) (f : TemplateForm) :
  f_id (fold_left apply_form_edit edits f) = f_id f.
Proof.
  revert f. induction edits as [|e edits IH]; intros f; simpl; [reflexivity|].
  rewrite IH. destruct e; reflexivity.
Qed.

(** Saving the template form does nothing when the title or the prompt
    is empty and only ever changes the templates; a new template gets the
    fresh id and goes first; an edit keeps the list of template ids and
    replaces every template carrying the edited template's id (also an
    empty one) with the form's contents under that id. *)
Theorem template_form_session_outcome (editingTemplate : option PromptTemplate)
    (edits : list FormEdit) (uuid : string) (a : App) :
  let f := fold_left apply_form_edit edits (template_form_initial editingTemplate) in
  let a' := template_form_session editingTemplate edits uuid a in
  let saved i := {| t_id := i; title := f_title f; description := f_description f;
                    prompt := f_prompt f; tags := f_tags f; models := f_models f;
                    exampleVideo := f_exampleVideo f; exampleVideoType := f_exampleVideoType f |} in
  (f_title f = EmptyString \/ f_prompt f = EmptyString -> a' = a) /\
  (m_settings a' = m_settings a /\ m_history a' = m_history a /\
   m_bundles a' = m_bundles a /\ db_settings a' = db_settings a /\
   db_history a' = db_history a /\ db_bundles a' = db_bundles a) /\
  (f_title f <> EmptyString -> f_prompt f <> EmptyString ->
     db_templates a' = store_of t_id (m_templates a')) /\
  (editingTemplate = None -> f_title f <> EmptyString -> f_prompt f <> EmptyString ->
     m_templates a' = saved uuid :: m_templates a) /\
  (forall t, editingTemplate = Some t -> map t_id (m_templates a') = map t_id (m_templates a)) /\
  (forall t, editingTemplate = Some t -> f_title f <> EmptyString -> f_prompt f <> EmptyString ->
     m_templates a' = map (fun x => if String.eqb (t_id x) (t_id t) then saved (t_id t) else x)
                          (m_templates a)).
Proof.
  intros f a' saved.
  assert (Hid : f_id f = match editingTemplate with Some t => Some (t_id t) | None => None end).
  { unfold f. rewrite form_edits_keep_id. destruct editingTemplate; reflexivity. }
  unfold a', template_form_session, template_form_save. fold f.
  destruct (is_empty_string (f_title f) || is_empty_string (f_prompt f)) eqn:Ee.
  - assert (He : f_title f = EmptyString \/ f_prompt f = EmptyString).
    { apply orb_true_iff in Ee. destruct Ee as [E|E]; apply is_empty_string_spec in E; tauto. }
    split; [intros _; reflexivity|].
    split; [repeat split; reflexivity|].
    split; [intros H1 H2; destruct He; contradiction|].
    split; [intros _ H1 H2; destruct He; contradiction|].
    split; [intros; reflexivity|].
    intros t _ H1 H2; destruct He; contradiction.
  - apply orb_false_iff in Ee. destruct Ee as [E1 E2].
    rewrite Hid. destruct editingTemplate as [t|]; unfold handleSaveTemplate, setTemplates; simpl.
    + split; [intros [H|H]; [rewrite H in E1|rewrite H in E2]; discriminate|].
      split; [repeat split; reflexivity|].
      split; [intros; reflexivity|].
      split; [intros; discriminate|].
      split; [intros t' [= <-]; apply map_replace_keys; reflexivity|].
      intros t' [= <-] _ _. reflexivity.
    + split; [intros [H|H]; [rewrite H in E1|rewrite H in E2]; discriminate|].
      split; [repeat split; reflexivity|].
      split; [intros; reflexivity|].
      split; [intros; reflexivity|].
      split; intros; discriminate.
Qed.

Lemma string_length_app (s t : string) : String.length (s +:+ t) = String.length s + String.length t.
Proof. induction s as [|c s IH]; simpl; [reflexivity|]. rewrite IH. reflexivity. Qed.

Lemma prefix_app_space (q p x : string) :
  ~ In " "%char (String.list_ascii_of_string q) ->
  String.prefix q (p +:+ String " " x) = true -> String.prefix q p = true.
Proof.
  revert p. induction q as [|a q IH]; intros p Hq H; [destruct p; reflexivity|].
  destruct p as [|b p]; simpl in H |- *.
  - destruct (ascii_dec a " ") as [E|E]; [|discriminate].
    exfalso. apply Hq. left. exact E.
  - destruct (ascii_dec a b) as [E|E]; [|discriminate].
    apply (IH p); [intros Hi; apply Hq; right; exact Hi|exact H].
Qed.


Lemma ws2_low (a b : ascii) : nat_of_ascii b < 128 -> ws2 a b = false.
Proof.
  intros H. unfold ws2. replace (Nat.eqb (nat_of_ascii b) 160) with false
    by (symmetry; apply Nat.eqb_neq; lia). apply andb_false_r.
Qed.

Lemma ws3_low2 (a b c : ascii) : nat_of_ascii b < 128 -> ws3 a b c = false.
Proof.
  intros H. unfold ws3.
  replace (Nat.eqb (nat_of_ascii b) 154) with false by (symmetry; apply Nat.eqb_neq; lia).
  replace (Nat.eqb (nat_of_ascii b) 128) with false by (symmetry; apply Nat.eqb_neq; lia).
  replace (Nat.eqb (nat_of_ascii b) 129) with false by (symmetry; apply Nat.eqb_neq; lia).
  replace (Nat.eqb (nat_of_ascii b) 187) with false by (symmetry; apply Nat.eqb_neq; lia).
  rewrite !andb_false_r. reflexivity.
Qed.

Lemma ws3_low3 (a b c : ascii) : nat_of_ascii c < 128 -> ws3 a b c = false.
Proof.
  intros H. unfold ws3.
  replace (Nat.eqb (nat_of_ascii c) 128) with false by (symmetry; apply Nat.eqb_neq; lia).
  replace (Nat.eqb (nat_of_ascii c) 159) with false by (symmetry; apply Nat.eqb_neq; lia).
  replace (Nat.eqb (nat_of_ascii c) 191) with false by (symmetry; apply Nat.eqb_neq; lia).
  replace (Nat.eqb (nat_of_ascii c) 168) with false by (symmetry; apply Nat.eqb_neq; lia).
  replace (Nat.eqb (nat_of_ascii c) 169) with false by (symmetry; apply Nat.eqb_neq; lia).
  replace (Nat.eqb (nat_of_ascii c) 175) with false by (symmetry; apply Nat.eqb_neq; lia).
  replace (Nat.leb (nat_of_ascii c) 138) with true by (symmetry; apply Nat.leb_le; lia).
  replace (Nat.leb 128 (nat_of_ascii c)) with false by (symmetry; apply Nat.leb_gt; lia).
  rewrite !andb_false_r. reflexivity.
Qed.

(** A space after a string that does not start with white space does
    not complete a white space character with it. *)
Lemma ws_step_app_space (s x : string) :
  s <> EmptyString -> ws_step s = None -> ws_step (s +:+ String " " x) = None.
Proof.
  assert (Hsp : nat_of_ascii " " < 128) by (change (nat_of_ascii " ") with 32; lia).
  intros Hne. destruct s as [|a [|b [|c s]]]; [contradiction| | |];
    rewrite ?string_app_cons, ?string_app_nil_l; cbn [ws_step].
  - destruct (ws1 a); [discriminate|]. intros _. rewrite ws2_low by exact Hsp.
    destruct x; [reflexivity|]. rewrite ws3_low2 by exact Hsp. reflexivity.
  - destruct (ws1 a); [discriminate|]. destruct (ws2 a b); [discriminate|].
    intros _. rewrite ws3_low3 by exact Hsp. reflexivity.
  - destruct (ws1 a), (ws2 a b), (ws3 a b c); congruence.
Qed.

Lemma ws_media_at_app (s x : string) :
  s <> EmptyString -> ws_media_at s = false ->
  ws_media_at (s +:+ String " " x) = false.
Proof.
  unfold ws_media_at. intros Hne H. destruct (ws_step s) as [r|] eqn:E.
  - rewrite (ws_step_app s _ r E).
    destruct (String.prefix "(media:" (r +:+ String " " x)) eqn:Ep; [|reflexivity].
    rewrite (prefix_app_space "(media:" r x) in H; [discriminate| |exact Ep].
    simpl. intros Hi. repeat (destruct Hi as [Hi|Hi]; [discriminate|]). exact Hi.
  - rewrite (ws_step_app_space s x Hne E). reflexivity.
Qed.

Lemma media_match_none (s : string) : ws_media_at s = false -> media_match_at s = None.
Proof.
  unfold ws_media_at, media_match_at. destruct (ws_step s) as [r|]; [|reflexivity].
  intros ->. reflexivity.
Qed.

Lemma strip_media_eq (s : string) :
  strip_media s =
  match media_match_at s with
  | Some rest => rest
  | None => match s with EmptyString => EmptyString | String c s' => String c (strip_media s') end
  end.
Proof. destruct s; reflexivity. Qed.

Lemma strip_media_free (s : string) : media_marker_free s = true -> strip_media s = s.
Proof.
  induction s as [|c s IH]; [reflexivity|].
  cbn [media_marker_free]. intros H. apply andb_prop in H. destruct H as [Hc Hs].
  apply negb_true_iff in Hc.
  rewrite strip_media_eq, media_match_none by exact Hc. f_equal. apply IH, Hs.
Qed.

Lemma line_terminator_at_app_paren (s x : string) :
  line_terminator_at s = false -> line_terminator_at (s +:+ String ")" x) = false.
Proof.
  destruct s as [|a [|b [|c s]]]; rewrite ?string_app_cons, ?string_app_nil_l; cbn [line_terminator_at].
  - intros _. reflexivity.
  - intros H. destruct x; cbn -[nat_of_ascii]; rewrite ?andb_false_r in *; exact H.
  - intros H. cbn -[nat_of_ascii]; rewrite ?andb_false_r in *; exact H.
  - tauto.
Qed.

Lemma last_paren_suffix (f : string) (idx : nat) (acc : option nat) :
  no_line_terminator f = true ->
  last_paren_before_eol (f +:+ String ")" EmptyString) idx acc = Some (idx + String.length f).
Proof.
  revert idx acc. induction f as [|c f IH]; intros idx acc Hf.
  - rewrite Nat.add_0_r. reflexivity.
  - cbn [no_line_terminator] in Hf. apply andb_prop in Hf. destruct Hf as [Hc Hf].
    apply negb_true_iff in Hc. rewrite string_app_cons. cbn [last_paren_before_eol].
    rewrite <- string_app_cons, line_terminator_at_app_paren by exact Hc.
    rewrite IH by exact Hf. cbn [String.length]. f_equal. lia.
Qed.

Lemma str_drop_app (f t : string) (n : nat) : str_drop (String.length f + n) (f +:+ t) = str_drop n t.
Proof. induction f as [|c f IH]; [reflexivity|]. exact IH. Qed.

(** A no-break space before the marker is white space for [\s] too. *)
Lemma strip_media_nbsp : strip_media ("x" +:+ nbsp +:+ "(media: f)") = "x".
Proof. vm_compute. reflexivity. Qed.

Lemma strip_media_suffix (p f : string) :
  media_marker_free p = true -> no_line_terminator f = true ->
  strip_media (p +:+ " (media: " +:+ f +:+ ")") = p.
Proof.
  intros Hp Hf. induction p as [|c p IH].
  - rewrite string_app_nil_l, strip_media_eq.
    assert (Hm : media_match_at (" (media: " +:+ f +:+ ")") = Some EmptyString).
    { unfold media_match_at. rewrite (string_app_cons " ").
      change (ws_step (String " " ("(media: " +:+ f +:+ ")"))) with (Some ("(media: " +:+ f +:+ ")")).
      cbv iota beta.
      change (String.prefix "(media:" ("(media: " +:+ f +:+ ")")) with true. cbv iota.
      change (str_drop 7 ("(media: " +:+ f +:+ ")")) with (String " " (f +:+ ")")).
      change (last_paren_before_eol (String " " (f +:+ ")")) 0 None)
        with (last_paren_before_eol (f +:+ String ")" EmptyString) 1 None).
      rewrite last_paren_suffix by exact Hf.
      change (str_drop (S (1 + String.length f)) (String " " (f +:+ ")")))
        with (str_drop (S (String.length f)) (f +:+ ")")).
      rewrite <- Nat.add_1_r, str_drop_app. reflexivity. }
    rewrite Hm. reflexivity.
  - cbn [media_marker_free] in Hp. apply andb_prop in Hp. destruct Hp as [Hc Hp].
    apply negb_true_iff in Hc.
    rewrite string_app_cons, strip_media_eq, media_match_none.
    + f_equal. apply IH, Hp.
    + rewrite <- string_app_cons. apply (ws_media_at_app (String c p)); [discriminate|exact Hc].
Qed.

(** Re-running the history item recorded by a generation restores the
    submitted prompt (the attachment note is stripped again), the JSON,
    Mars, style, length and reasoning controls and the selected bundles
    still present, clears tags, individual templates and the attachment
    and shows the prompter; for an attachment-only submission the prompt
    becomes ["Media: "] followed by the file name. *)
Theorem rerun_after_submit (i : SubmitInput) (w : SubmitWorld) (refs : list PromptTemplate)
    (fullResponse : string) (bundles : list BundledTemplate) (st : PrompterState) :
  media_marker_free (s_prompt i) = true ->
  (forall fname, s_media i = Some fname -> no_line_terminator fname = true) ->
  let st' := handleRerun bundles (new_history_item i w refs fullResponse) st in
  (s_prompt i <> EmptyString \/ s_media i = None -> p_prompt st' = s_prompt i) /\
  (s_prompt i = EmptyString -> forall fname, s_media i = Some fname ->
     media_marker_free ("Media: " +:+ fname) = true -> p_prompt st' = "Media: " +:+ fname) /\
  p_isJsonMode st' = s_isJsonMode i /\ p_useMarsLsp st' = s_useMarsLsp i /\
  p_style st' = s_style i /\ p_length st' = s_length i /\ p_useReasoning st' = s_useReasoning i /\
  (forall b, In b (p_selectedBundles st') <->
     In b bundles /\ In (b_id b) (map b_id (s_selectedBundles i))) /\
  p_selectedTags st' = [] /\ p_selectedIndividualTemplates st' = [] /\
  p_media st' = None /\ p_view st' = PROMPTER.
Proof.
  intros Hp Hf st'.
  assert (Hpr : p_prompt st' = strip_media (userPromptForHistory (s_prompt i) (s_media i)))
    by reflexivity.
  assert (Hbs : p_selectedBundles st' =
                List.filter (fun b => includes (map b_id (s_selectedBundles i)) (b_id b)) bundles)
    by reflexivity.
  rewrite Hpr, Hbs. unfold userPromptForHistory.
  split; [|split].
  - intros Hc. destruct (s_media i) as [fname|] eqn:Em.
    + destruct Hc as [Hne|]; [|discriminate].
      unfold is_empty_string. destruct (String.eqb_spec (s_prompt i) EmptyString); [contradiction|].
      apply strip_media_suffix; [exact Hp|apply Hf; reflexivity].
    + apply strip_media_free, Hp.
  - intros He fname Em Hm. rewrite Em, He. apply strip_media_free, Hm.
  - refine (conj eq_refl (conj eq_refl (conj eq_refl (conj eq_refl (conj eq_refl
             (conj _ (conj eq_refl (conj eq_refl (conj eq_refl eq_refl))))))))).
    intros b. rewrite filter_In, includes_spec. reflexivity.
Qed.

Lemma map_filter_key {A} (key : A -> string) (l : list A) (id : string) :
  map key (List.filter (fun p => negb (String.eqb (key p) id)) l) =
  List.filter (fun x => negb (String.eqb x id)) (map key l).
Proof.
  induction l as [|x l IH]; simpl; [reflexivity|].
  destruct (negb (String.eqb (key x) id)); simpl; rewrite IH; reflexivity.
Qed.

Lemma filter_key_length {A} (key : A -> string) (l : list A) (id : string) :
  List.NoDup (map key l) ->
  length l <= S (length (List.filter (fun p => negb (String.eqb (key p) id)) l)).
Proof.
  induction l as [|x l IH]; simpl; [lia|]. intros Hnd.
  inversion Hnd as [|? ? Hx Hnd']; subst.
  destruct (String.eqb_spec (key x) id) as [E|E]; simpl.
  - rewrite filter_all_true; [lia|].
    intros y Hy. apply negb_true_iff. apply String.eqb_neq. intros Ey.
    apply Hx. rewrite E, <- Ey. apply in_map, Hy.
  - specialize (IH Hnd'). lia.
Qed.

Lemma updatePromptValue_ids (id value : string) (prev : list PromptRow) :
  map row_id (updatePromptValue id value prev) = map row_id prev.
Proof.
  unfold updatePromptValue. induction prev as [|p prev IH]; simpl; [reflexivity|].
  rewrite IH. destruct (String.eqb (row_id p) id); reflexivity.
Qed.

Lemma batch_rows_fold (edits : list RowEdit) (prev : list PromptRow) :
  prev <> [] -> List.NoDup (map row_id prev) -> List.NoDup (row_uuids edits) ->
  (forall u, In u (row_uuids edits) -> ~ In u (map row_id prev)) ->
  let rows := fold_left apply_row_edit edits prev in
  rows <> [] /\ List.NoDup (map row_id rows) /\
  (forall r, In r rows -> In (row_id r) (map row_id prev) \/ In (row_id r) (row_uuids edits)).
Proof.
  revert prev. induction edits as [|e edits IH]; intros prev Hne Hnd Hu Hfresh; simpl.
  - split; [exact Hne|]. split; [exact Hnd|]. intros r Hr. left. apply in_map, Hr.
  - destruct e as [u|id|id value]; simpl in Hu, Hfresh.
    + inversion Hu as [|? ? Hu0 Hu']; subst.
      assert (Hids : map row_id (addPromptInput u prev) = map row_id prev ++ [u]).
      { unfold addPromptInput. rewrite map_app. reflexivity. }
      destruct (IH (addPromptInput u prev)) as (H1 & H2 & H3); try assumption.
      * unfold addPromptInput. destruct prev; discriminate.
      * rewrite Hids. apply nodup_snoc; [exact Hnd|]. apply Hfresh. left. reflexivity.
      * intros v Hv. rewrite Hids, in_app_iff. simpl. intros [H|[H|[]]].
        -- apply (Hfresh v); [right; exact Hv|exact H].
        -- subst. contradiction.
      * split; [exact H1|]. split; [exact H2|]. intros r Hr.
        destruct (H3 r Hr) as [H|H]; [|right; right; exact H].
        rewrite Hids, in_app_iff in H. simpl in H.
        destruct H as [H|[H|[]]]; [left; exact H|right; left; exact H].
    + assert (Hsub : forall x, In x (map row_id (removePromptInput id prev)) -> In x (map row_id prev)).
      { intros x. unfold removePromptInput. destruct (Nat.ltb 1 (length prev)); [|tauto].
        rewrite map_filter_key. intros Hx. apply filter_In in Hx. apply Hx. }
      destruct (IH (removePromptInput id prev)) as (H1 & H2 & H3); try assumption.
      * unfold removePromptInput. destruct (Nat.ltb 1 (length prev)) eqn:El; [|exact Hne].
        apply Nat.ltb_lt in El. pose proof (filter_key_length row_id prev id Hnd) as L.
        intros E. rewrite E in L. simpl in L. lia.
      * unfold removePromptInput. destruct (Nat.ltb 1 (length prev)); [|exact Hnd].
        rewrite map_filter_key. apply List.NoDup_filter, Hnd.
      * intros v Hv Hin. apply (Hfresh v Hv), Hsub, Hin.
      * split; [exact H1|]. split; [exact H2|]. intros r Hr.
        destruct (H3 r Hr) as [H|H]; [left; apply Hsub, H|right; exact H].
    + destruct (IH (updatePromptValue id value prev)) as (H1 & H2 & H3); try assumption.
      * unfold updatePromptValue. destruct prev; [contradiction|discriminate].
      * rewrite updatePromptValue_ids. exact Hnd.
      * intros v Hv. rewrite updatePromptValue_ids. apply Hfresh, Hv.
      * split; [exact H1|]. split; [exact H2|]. intros r Hr.
        rewrite <- updatePromptValue_ids with (id := id) (value := value). apply H3, Hr.
Qed.

(** In the batch dialog, as long as every id handed out for a row is
    fresh, the prompt rows never become empty (removing the last row is
    refused and removing by a unique id drops at most one row), row ids
    stay unique, and every row id is one of the ids handed out. *)
Theorem batch_rows_invariant (uuid0 : string) (edits : list RowEdit) :
  List.NoDup (uuid0 :: row_uuids edits) ->
  let rows := batch_rows_session uuid0 edits in
  rows <> [] /\ List.NoDup (map row_id rows) /\
  (forall r, In r rows -> In (row_id r) (uuid0 :: row_uuids edits)).
Proof.
  intros Hnd rows. inversion Hnd as [|? ? H0 Hnd']; subst.
  destruct (batch_rows_fold edits [{| row_id := uuid0; row_value := EmptyString |}])
    as (H1 & H2 & H3).
  - discriminate.
  - simpl. constructor; [intros []|constructor].
  - exact Hnd'.
  - simpl. intros u Hu [E|[]]. subst. contradiction.
  - split; [exact H1|]. split; [exact H2|]. intros r Hr.
    destruct (H3 r Hr) as [[H|[]]|H]; [left; exact H|right; exact H].
Qed.

Lemma matchesTags_forallb (sel : list string) (t : PromptTemplate) :
  matchesTags sel t = forallb (fun tag => includes (tags t) tag) sel.
Proof. unfold matchesTags. destruct sel; reflexivity. Qed.

Lemma contains_empty (s : string) : contains EmptyString s = true.
Proof. destruct s; reflexivity. Qed.

Lemma filter_filter {A} (f g : A -> bool) (l : list A) :
  List.filter f (List.filter g l) = List.filter (fun x => g x && f x) l.
Proof.
  induction l as [|x l IH]; simpl; [reflexivity|].
  destruct (g x); simpl; [destruct (f x); simpl; rewrite IH|rewrite IH]; reflexivity.
Qed.

Lemma filter_ext_l {A} (f g : A -> bool) (l : list A) :
  (forall x, f x = g x) -> List.filter f l = List.filter g l.
Proof.
  intros H. induction l as [|x l IH]; simpl; [reflexivity|]. rewrite H, IH. reflexivity.
Qed.

Lemma forallb_same_elems (p : string -> bool) (sel sel' : list string) :
  (forall x, In x sel <-> In x sel') -> forallb p sel = forallb p sel'.
Proof.
  intros H. destruct (forallb p sel) eqn:E1, (forallb p sel') eqn:E2; try reflexivity.
  - rewrite forallb_forall in E1. apply not_true_iff_false in E2. exfalso. apply E2.
    apply forallb_forall. intros x Hx. apply E1, H, Hx.
  - rewrite forallb_forall in E2. apply not_true_iff_false in E1. exfalso. apply E1.
    apply forallb_forall. intros x Hx. apply E2, H, Hx.
Qed.

(** Both template filters show every template, in order, when the
    search is empty and no tag is selected; selecting one more tag keeps
    exactly the shown templates that carry it; the result depends only
    on which tags are selected, not on their order or repetition; and
    every template the templates view shows is also shown by the quick-add
    panel for the same search and tags. *)
Theorem template_filters_spec (templates : list PromptTemplate) (q tag : string)
    (sel sel' : list string) :
  templatesView_filteredTemplates templates EmptyString [] = templates /\
  quickAdd_filteredTemplates templates EmptyString [] = templates /\
  templatesView_filteredTemplates templates q (tag :: sel) =
    List.filter (fun t => includes (tags t) tag) (templatesView_filteredTemplates templates q sel) /\
  quickAdd_filteredTemplates templates q (tag :: sel) =
    List.filter (fun t => includes (tags t) tag) (quickAdd_filteredTemplates templates q sel) /\
  ((forall x, In x sel <-> In x sel') ->
     templatesView_filteredTemplates templates q sel = templatesView_filteredTemplates templates q sel' /\
     quickAdd_filteredTemplates templates q sel = quickAdd_filteredTemplates templates q sel') /\
  (forall t, In t (templatesView_filteredTemplates templates q sel) ->
     In t (quickAdd_filteredTemplates templates q sel)).
Proof.
  unfold templatesView_filteredTemplates, quickAdd_filteredTemplates.
  split; [apply filter_all_true; intros t _; simpl; rewrite contains_empty; reflexivity|].
  split; [apply filter_all_true; intros t _; simpl; rewrite contains_empty; reflexivity|].
  split; [rewrite filter_filter; apply filter_ext_l; intros t;
          rewrite !matchesTags_forallb; simpl;
          destruct (_ || _), (includes _ _), (forallb _ _); reflexivity|].
  split; [rewrite filter_filter; apply filter_ext_l; intros t;
          rewrite !matchesTags_forallb; simpl;
          destruct (_ || _ || _), (includes _ _), (forallb _ _); reflexivity|].
  split.
  - intros H. split; apply filter_ext_l; intros t; rewrite !matchesTags_forallb;
      rewrite (forallb_same_elems _ sel sel' H); reflexivity.
  - intros t Ht. apply filter_In in Ht. destruct Ht as [Ht Hm]. apply filter_In.
    split; [exact Ht|]. apply andb_prop in Hm. destruct Hm as [Hs Hm].
    rewrite Hm, andb_true_r. apply orb_prop in Hs.
    destruct Hs as [Hs|Hs]; rewrite Hs; [reflexivity|rewrite orb_true_r; reflexivity].
Qed.

Lemma code_unit_le_total : Total code_unit_le.
Proof. intros a b. unfold code_unit_le. apply String.leb_total. Qed.

Lemma count_set_keys_fold (m : list (string * nat)) (l : list string) :
  map fst (foldl count_set m l) = map fst m ++ dedup_after (map fst m) l.
Proof.
  revert m. induction l as [|k l IH]; intros m; simpl; [rewrite app_nil_r; reflexivity|].
  rewrite IH. unfold count_set. rewrite jsmap_set_keys.
  destruct (includes (map fst m) k); [reflexivity|].
  rewrite <- app_assoc. reflexivity.
Qed.

Lemma tagUsageCounts_keys (templates : list PromptTemplate) :
  map fst (tagUsageCounts templates) = set_of (flat_map tags templates).
Proof.
  unfold tagUsageCounts, set_of.
  assert (E : forall m ts, foldl (fun counts template => foldl count_set counts (tags template)) m ts =
                           foldl count_set m (flat_map tags ts)).
  { intros m ts. revert m. induction ts as [|t ts IH]; intros m; simpl; [reflexivity|].
    rewrite IH, foldl_app. reflexivity. }
  rewrite E, count_set_keys_fold. reflexivity.
Qed.

(** The tag list offered for filtering is sorted by code units, has no
    duplicates and holds exactly the tags of the templates; the quick-add
    panel, which sorts the keys of the tag usage counts instead, offers
    the very same list. *)
Theorem allTags_spec (templates : list PromptTemplate) :
  Sorted code_unit_le (allTags templates) /\
  List.NoDup (allTags templates) /\
  (forall x, In x (allTags templates) <-> exists t, In t templates /\ In x (tags t)) /\
  quickAdd_allFilterableTags (tagUsageCounts templates) = allTags templates.
Proof.
  destruct (set_of_spec (flat_map tags templates)) as [Hnd Hin].
  pose proof (merge_sort_Permutation code_unit_le (set_of (flat_map tags templates))) as HP.
  split; [apply (@Sorted_merge_sort _ code_unit_le _ code_unit_le_total)|].
  split; [unfold allTags; apply NoDup_ListNoDup; rewrite HP; apply NoDup_ListNoDup, Hnd|].
  split.
  - intros x. unfold allTags. rewrite <- list_elem_of_In, HP, list_elem_of_In, Hin, in_flat_map.
    reflexivity.
  - unfold quickAdd_allFilterableTags, allTags. rewrite tagUsageCounts_keys. reflexivity.
Qed.

(** A concrete run of [hook_reload_roundtrip]: writing ["a"; "b"] keyed by
    themselves and loading it back gives a permutation of ["a"; "b"]. *)
Lemma hook_reload_roundtrip_witness :
  List.NoDup (map (fun s : string => s) ["a"; "b"]) /\
  Permutation (loadArray ["x"] (store_of (fun s : string => s) ["a"; "b"])) ["a"; "b"].
Proof.
  assert (Hnd : List.NoDup (map (fun s : string => s) ["a"; "b"])).
  { simpl. constructor; [simpl; intros [H|[]]; discriminate|].
    constructor; [intros []|constructor]. }
  split; [exact Hnd|].
  apply (proj2 (hook_reload_roundtrip (fun s : string => s) ["x"] ["a"; "b"] Hnd)).
  discriminate.
Defined.

(** A concrete run of [rerun_after_submit]: the item recorded for the
    prompt ["idea"] with the attachment ["cat.png"] re-runs as ["idea"]. *)
Lemma rerun_after_submit_witness :
  p_prompt (handleRerun [] (new_history_item (sample_input "idea" (Some "cat.png"))
                             (world_of (StreamReturns abc_stream)) [] "ABC") idle_prompter)
  = "idea".
Proof.
  destruct (rerun_after_submit (sample_input "idea" (Some "cat.png"))
              (world_of (StreamReturns abc_stream)) [] "ABC" [] idle_prompter) as (H1 & _).
  - reflexivity.
  - intros f Hf. injection Hf as <-. reflexivity.
  - apply H1. left. discriminate.
Defined.

(** A concrete run of [batch_rows_invariant]: after adding a row, typing in
    the first, removing the new row and trying to remove the last one,
    a row is left. *)
Lemma batch_rows_invariant_witness :
  List.NoDup ["r0"; "r1"] /\
  batch_rows_session "r0" [AddRow "r1"; UpdateRow "r0" "a cat"; RemoveRow "r1"; RemoveRow "r0"] <> [].
Proof.
  assert (Hnd : List.NoDup ("r0" :: row_uuids [AddRow "r1"; UpdateRow "r0" "a cat";
                                               RemoveRow "r1"; RemoveRow "r0"])).
  { simpl. constructor; [simpl; intros [H|[]]; discriminate|].
    constructor; [intros []|constructor]. }
  split; [exact Hnd|].
  exact (proj1 (batch_rows_invariant "r0" _ Hnd)).
Defined.
